(** * efiver.py: firmware-image introspection, embedded and verified

    The development follows [src/efiver.py]: the classes [EFI], [BoardID],
    [Model] and [GUID] become modules of the same names, the open firmware
    file [f] becomes an explicit state (content and cursor) threaded through
    a small state-and-exception monad, and every unbounded [while] scan takes
    a fuel argument, the number of iterations it is granted. *)

From Stdlib Require Import String Ascii List ZArith NArith Bool Lia.
From Stdlib Require Strings.Byte.
Import ListNotations.
Local Open Scope Z_scope.

Definition byte : Set := Init.Byte.byte.

(** ** Python values *)

(** A Python [str] is a sequence of Unicode code points; a [bytes] object is
    a [list byte]. *)
Definition codepoint := N.
Definition str := list codepoint.

(** [u "abc"]: a text literal of the source (all of them are ASCII). *)
Definition u (s : string) : str := map N_of_ascii (list_ascii_of_string s).
Arguments u s%_string.

(** [b "abc"]: a bytes literal of the source written with printable
    characters, such as [b'096de3c3...']. *)
Definition b (s : string) : list byte := list_byte_of_string s.
Arguments b s%_string.

Definition NUL : codepoint := 0%N.
Definition DOT : codepoint := 46%N.
Definition UNDERSCORE : codepoint := 95%N.

Fixpoint str_eqb (s t : str) : bool :=
  match s, t with
  | [], [] => true
  | c :: s', d :: t' => (c =? d)%N && str_eqb s' t'
  | _, _ => false
  end.

(** [s < t] on [str]: lexicographic on code points, a proper prefix is
    smaller. *)
Fixpoint str_ltb (s t : str) : bool :=
  match s, t with
  | _, [] => false
  | [], _ :: _ => true
  | c :: s', d :: t' =>
      if (c <? d)%N then true
      else if (c =? d)%N then str_ltb s' t' else false
  end.

Fixpoint bytes_eqb (x y : list byte) : bool :=
  match x, y with
  | [], [] => true
  | c :: x', d :: y' => Byte.eqb c d && bytes_eqb x' y'
  | _, _ => false
  end.

(** [s.startswith(prefix)] *)
Fixpoint startswith (s prefix : str) {struct prefix} : bool :=
  match prefix, s with
  | [], _ => true
  | p :: prefix', c :: s' => (c =? p)%N && startswith s' prefix'
  | _ :: _, [] => false
  end.

(** [s.split(sep)] for a one-character separator, which is how every call
    of the source uses it.  The result is never empty. *)
Fixpoint split (s : str) (sep : codepoint) : list str :=
  match s with
  | [] => [[]]
  | c :: s' =>
      if (c =? sep)%N then [] :: split s' sep
      else match split s' sep with
           | [] => [[c]]
           | field :: fields => (c :: field) :: fields
           end
  end.

(** [s.replace(c, '')] for a one-character [c]. *)
Definition remove_char (s : str) (c : codepoint) : str :=
  filter (fun x => negb (x =? c)%N) s.

(** [s[:x]] and [s[x:]], with Python's treatment of negative and
    out-of-range indices. *)
Definition clamp_index (n x : Z) : Z :=
  if x <? 0 then Z.max 0 (n + x) else Z.min x n.

Definition slice_to (s : str) (x : Z) : str :=
  firstn (Z.to_nat (clamp_index (Z.of_nat (length s)) x)) s.

Definition slice_from (s : str) (x : Z) : str :=
  skipn (Z.to_nat (clamp_index (Z.of_nat (length s)) x)) s.

(** ['%-Ns' % s] *)
Definition ljust (width : nat) (s : str) : str :=
  s ++ repeat 32%N (width - length s).

(** [str.isdigit] and [str.isalnum] on one character.  Their tables belong
    to the interpreter's Unicode database, not to the repository, so the
    program is read over any such database. *)
Class UnicodeDB := {
  isdigit : codepoint -> bool;
  isalnum : codepoint -> bool
}.

(** The two predicates on the ASCII range, where every database agrees. *)
Definition ascii_isdigit (c : codepoint) : bool :=
  ((48 <=? c) && (c <=? 57))%N.

Definition ascii_isalpha (c : codepoint) : bool :=
  (((65 <=? c) && (c <=? 90)) || ((97 <=? c) && (c <=? 122)))%N.

Definition asciiDB : UnicodeDB :=
  {| isdigit := ascii_isdigit;
     isalnum := fun c => ascii_isalpha c || ascii_isdigit c |}.

(** [str.upper], which the source applies to the output of [hexlify] only:
    lower-case ASCII letters are shifted, every digit is kept. *)
Definition upper_char (c : codepoint) : codepoint :=
  if ((97 <=? c) && (c <=? 122))%N then (c - 32)%N else c.

Definition upper (s : str) : str := map upper_char s.

(** ** Exceptions and results *)

Inductive exn := OSError | UnicodeDecodeError | IndexError.

(** What running a piece of the program gives: a value, a raised exception,
    or no answer within the given number of loop iterations. *)
Inductive result (A : Type) :=
| Ok (a : A)
| Raise (e : exn)
| OutOfFuel.
Arguments Ok {A} a.
Arguments Raise {A} e.
Arguments OutOfFuel {A}.

Definition result_bind {A B} (r : result A) (k : A -> result B) : result B :=
  match r with
  | Ok a => k a
  | Raise e => Raise e
  | OutOfFuel => OutOfFuel
  end.

(** [l[i]] *)
Definition index {A} (l : list A) (i : nat) : result A :=
  match nth_error l i with
  | Some x => Ok x
  | None => Raise IndexError
  end.

(** ** [binascii.hexlify] and [bytes.decode('utf-8')] *)

Definition hexdigit (n : N) : byte :=
  nth (N.to_nat n) (b "0123456789abcdef") Byte.x00.

Definition hexlify_byte (x : byte) : list byte :=
  [hexdigit (Byte.to_N x / 16); hexdigit (Byte.to_N x mod 16)].

Definition hexlify (data : list byte) : list byte :=
  flat_map hexlify_byte data.

Definition is_cont (x : byte) : bool :=
  ((128 <=? Byte.to_N x) && (Byte.to_N x <=? 191))%N.

Definition in_range (lo hi : N) (x : byte) : bool :=
  ((lo <=? Byte.to_N x) && (Byte.to_N x <=? hi))%N.

Definition cont_bits (x : byte) : N := (Byte.to_N x - 128)%N.

(** Strict UTF-8, as Python 3 decodes it: shortest forms only, no
    surrogates, nothing above U+10FFFF. *)
Fixpoint decode_utf8 (data : list byte) : result str :=
  match data with
  | [] => Ok []
  | b0 :: r1 =>
      let n0 := Byte.to_N b0 in
      if (n0 <? 128)%N then
        result_bind (decode_utf8 r1) (fun s => Ok (n0 :: s))
      else
        match r1 with
        | [] => Raise UnicodeDecodeError
        | b1 :: r2 =>
            if in_range 194 223 b0 then
              if is_cont b1 then
                result_bind (decode_utf8 r2) (fun s =>
                  Ok (((n0 - 192) * 64 + cont_bits b1)%N :: s))
              else Raise UnicodeDecodeError
            else
              match r2 with
              | [] => Raise UnicodeDecodeError
              | b2 :: r3 =>
                  if in_range 224 239 b0 then
                    if (if (n0 =? 224)%N then in_range 160 191 b1
                        else if (n0 =? 237)%N then in_range 128 159 b1
                        else is_cont b1) && is_cont b2 then
                      result_bind (decode_utf8 r3) (fun s =>
                        Ok (((n0 - 224) * 4096 + cont_bits b1 * 64
                             + cont_bits b2)%N :: s))
                    else Raise UnicodeDecodeError
                  else
                    match r3 with
                    | [] => Raise UnicodeDecodeError
                    | b3 :: r4 =>
                        if in_range 240 244 b0 then
                          if (if (n0 =? 240)%N then in_range 144 191 b1
                              else if (n0 =? 244)%N then in_range 128 143 b1
                              else is_cont b1) && is_cont b2 && is_cont b3 then
                            result_bind (decode_utf8 r4) (fun s =>
                              Ok (((n0 - 240) * 262144 + cont_bits b1 * 4096
                                   + cont_bits b2 * 64 + cont_bits b3)%N :: s))
                          else Raise UnicodeDecodeError
                        else Raise UnicodeDecodeError
                    end
              end
        end
  end.

(** ** The open file *)

(** [io.open(firmwareFile, 'rb')]: the bytes of the file and the position of
    the next read. *)
Record file := mkFile { content : list byte; cursor : Z }.

Definition io (A : Type) : Type := file -> result (A * file).

Definition ret {A} (a : A) : io A := fun f => Ok (a, f).

Definition bind {A B} (m : io A) (k : A -> io B) : io B :=
  fun f =>
    match m f with
    | Ok (a, f') => k a f'
    | Raise e => Raise e
    | OutOfFuel => OutOfFuel
    end.

Definition lift {A} (r : result A) : io A :=
  fun f => result_bind r (fun a => Ok (a, f)).

Definition timeout {A} : io A := fun _ => OutOfFuel.

Declare Scope io_scope.
Delimit Scope io_scope with io.
Notation "x <- m ;; k" := (bind m (fun x => k))
  (at level 61, m at next level, right associativity) : io_scope.
Notation "m ;; k" := (bind m (fun _ => k))
  (at level 61, right associativity) : io_scope.
Local Open Scope io_scope.

(** [f.seek(position, 0)]: a negative position is refused. *)
Definition seek (position : Z) : io unit :=
  fun f =>
    if position <? 0 then Raise OSError
    else Ok (tt, mkFile (content f) position).

(** [f.read(n)]: at most [n] bytes from the cursor on, fewer at the end of
    the file, and the cursor moves past what was read. *)
Definition read (n : nat) : io (list byte) :=
  fun f =>
    let data := firstn n (skipn (Z.to_nat (cursor f)) (content f)) in
    Ok (data, mkFile (content f) (cursor f + Z.of_nat (length data))).

(** [os.stat(firmwareFile).st_size] *)
Definition st_size : io Z :=
  fun f => Ok (Z.of_nat (length (content f)), f).

(** ** The tables of the script *)

Definition GLOB_SCAP_EXTENSION : str := u "*.scap".
Definition GLOB_FD_EXTENSION : str := u "*.fd".

Definition oldStyleFWModels : list str := map u [
 "MB51";"MB52";"MB61";"MB71";"MBP41";"MBP51";"MBP52";"MBP53";
 "MBP55";"MBP61";"MBP71";"MBP81";"MBP91";"MBP101";"MBP102";"MBA21";
 "MBA31";"MBA41";"MBA51";"IM81";"IM91";"IM101";"IM111";"IM112";
 "IM121";"IM131";"MM32";"MM41";"MM51";"MM61";"MP51";"MP61"
]%string.

Definition boardIDModelIDs : list (str * str) :=
 map (fun x => (u (fst x), u (snd x))) [
 ("Mac-F22C8AC8", "MacBook6,1");
 ("Mac-F22C89C8", "MacBook7,1");
 ("Mac-BE0E8AC46FE800CC", "MacBook8,1");
 ("Mac-F305150B0C7DEEEF", "MacBook8,x");
 ("Mac-9AE82516C7C6B903", "MacBook9,1");
 ("Mac-EE2EBD4B90B839A8", "MacBook10,1");
 ("Mac-F22589C8", "MacBookPro6,1");
 ("Mac-F22586C8", "MacBookPro6,2");
 ("Mac-F222BEC8", "MacBookPro7,1");
 ("Mac-94245B3640C91C81", "MacBookPro8,1");
 ("Mac-94245A3940C91C80", "MacBookPro8,2");
 ("Mac-942459F5819B171B", "MacBookPro8,3");
 ("Mac-4B7AC7E43945597E", "MacBookPro9,1");
 ("Mac-6F01561E16C75D06", "MacBookPro9,2");
 ("Mac-C3EC7CD22292981F", "MacBookPro10,1");
 ("Mac-AFD8A9D944EA4843", "MacBookPro10,2");
 ("Mac-189A3D4F975D5FFC", "MacBookPro11,1");
 ("Mac-D1FF70AF6D8C849A", "MacBookPro11,x");
 ("Mac-3CBD00234E554E41", "MacBookPro11,2");
 ("Mac-2BD1B31983FE1663", "MacBookPro11,3");
 ("Mac-06F11FD93F0323C5", "MacBookPro11,4");
 ("Mac-06F11F11946D27C5", "MacBookPro11,5");
 ("Mac-E43C1C25D4880AD6", "MacBookPro12,1");
 ("Mac-473D31EABEB93F9B", "MacBookPro13,1");
 ("Mac-66E35819EE2D0D05", "MacBookPro13,2");
 ("Mac-1BDAB09B689867E2", "MacBookPro13,x");
 ("Mac-A5C67F76ED83108C", "MacBookPro13,3");
 ("Mac-B4831CEBD52A0C4C", "MacBookPro14,1");
 ("Mac-CAD6701F7CEA0921", "MacBookPro14,2");
 ("Mac-551B86E5744E2388", "MacBookPro14,3");
 ("Mac-942452F5819B1C1B", "MacBookAir3,1");
 ("Mac-942C5DF58193131B", "MacBookAir3,2");
 ("Mac-C08A6BB70A942AC2", "MacBookAir4,1");
 ("Mac-742912EFDBEE19B3", "MacBookAir4,2");
 ("Mac-66F35F19FE2A0D05", "MacBookAir5,1");
 ("Mac-2E6FAB96566FE58C", "MacBookAir5,2");
 ("Mac-35C1E88140C3E6CF", "MacBookAir6,1");
 ("Mac-7DF21CB3ED6977E5", "MacBookAir6,2");
 ("Mac-9F18E312C5C2BF0B", "MacBookAir7,1");
 ("Mac-937CB26E2E02BB01", "MacBookAir7,2");
 ("Mac-F2268CC8", "iMac10,1");
 ("Mac-F2268DAE", "iMac11,1");
 ("Mac-F2238AC8", "iMac11,2");
 ("Mac-F2238BAE", "iMac11,3");
 ("Mac-942B5BF58194151B", "iMac12,1");
 ("Mac-942B59F58194171B", "iMac12,2");
 ("Mac-00BE6ED71E35EB86", "iMac13,1");
 ("Mac-FC02E91DDD3FA6A4", "iMac13,2");
 ("Mac-7DF2A3B5E5D671ED", "iMac13,3");
 ("Mac-031B6874CF7F642A", "iMac14,1");
 ("Mac-27ADBB7B4CEE8E61", "iMac14,2");
 ("Mac-77EB7D7DAF985301", "iMac14,3");
 ("Mac-81E3E92DD6088272", "iMac14,4");
 ("Mac-FA842E06C61E91C5", "iMac15,1");
 ("Mac-42FD25EABCABB274", "iMac15,1");
 ("Mac-A369DDC4E67F1C45", "iMac16,1");
 ("Mac-FFE5EF870D7BA81A", "iMac16,2");
 ("Mac-DB15BD556843C820", "iMac17,1");
 ("Mac-65CE76090165799A", "iMac17,1");
 ("Mac-B809C3757DA9BB8D", "iMac17,1");
 ("Mac-4B682C642B45593E", "iMac18,1");
 ("Mac-77F17D7DA9285301", "iMac18,2");
 ("Mac-BE088AF8C5EB4FA2", "iMac18,3");
 ("Mac-F2208EC8", "Macmini4,1");
 ("Mac-8ED6AF5B48C039E1", "Macmini5,1");
 ("Mac-4BC72D62AD45599E", "Macmini5,2");
 ("Mac-7BA5B2794B2CDB12", "Macmini5,3");
 ("Mac-031AEE4D24BFF0B1", "Macmini6,1");
 ("Mac-F65AE981FFA204ED", "Macmini6,2");
 ("Mac-35C5E08120C7EEAF", "Macmini7,1");
 ("Mac-F221BEC8", "MacPro4,1");
 ("Mac-F221DCC8", "MacPro5,1");
 ("Mac-F60DEB81FF30ACF6", "MacPro6,1");
 ("Mac-7BA5B2D9E42DDD94", "iMacPro1,1");
 ("Mac-CF21D135A7D34AA6", "Unknown");
 ("Mac-112B0A653D3AAB9C", "Unknown");
 ("Mac-90BE64C3CB5A9AEB", "Unknown")
 ]%string.

(** ** class BoardID *)

Module BoardID.

(** [b'\xFF\xFF\xFF\xFF\xFF\xFF\xFF\xFF'], the unused slot. *)
Definition unused : list byte :=
  [Byte.xff; Byte.xff; Byte.xff; Byte.xff;
   Byte.xff; Byte.xff; Byte.xff; Byte.xff].

(** ["Mac-%s" % binascii.hexlify(boardID).decode('utf-8').upper()] *)
Definition render (boardID : list byte) : result str :=
  result_bind (decode_utf8 (hexlify boardID))
              (fun s => Ok (u "Mac-" ++ upper s)).

(** The [while count > 1] loop; [n] is the number of iterations left,
    [count - 1]. *)
Fixpoint getIDs_loop (n : nat) (position : Z) (trailingBytes : bool)
         (boardIDs : list str) : io (list str) :=
  match n with
  | O => ret boardIDs
  | S n' =>
      let position := position + 8 in
      seek position ;;
      boardID <- read 8 ;;
      if bytes_eqb boardID unused then ret boardIDs
      else
        s <- lift (render boardID) ;;
        let boardIDs := boardIDs ++ [s] in
        let position := if trailingBytes then position + 2 else position in
        getIDs_loop n' position trailingBytes boardIDs
  end.

Definition getIDs (position : Z) (trailingBytes : bool) : io (list str) :=
  let boardIDs := [] in
  let count := 15%nat in
  let position := position + 20 in
  seek position ;;
  getIDs_loop (count - 1) position trailingBytes boardIDs.

Fixpoint getByModelID_in (table : list (str * str)) (modelID : str) : str :=
  match table with
  | [] => u "Unknown"
  | x :: table' =>
      if str_eqb modelID (snd x) then fst x
      else getByModelID_in table' modelID
  end.

Definition getByModelID (modelID : str) : str :=
  getByModelID_in boardIDModelIDs modelID.

End BoardID.

(** ** class Model *)

Module Model.

Section WithUnicode.
Context {db : UnicodeDB}.

Definition getID (id : str) : str :=
  let number := filter isdigit id in
  let x := Z.of_nat (length number) - 1 in
  if startswith id (u "IM") then
    u "iMac" ++ slice_to number x ++ u "," ++ slice_from number (-1)
  else if startswith id (u "IMP") then
    u "iMacPro" ++ slice_to number x ++ u "," ++ slice_from number (-1)
  else if startswith id (u "MBP") then
    u "MacBookPro" ++ slice_to number x ++ u "," ++ slice_from number (-1)
  else if startswith id (u "MBA") then
    u "MacBookAir" ++ slice_to number x ++ u "," ++ slice_from number (-1)
  else if startswith id (u "MB") then
    u "MacBook" ++ slice_to number x ++ u "," ++ slice_from number (-1)
  else if startswith id (u "MM") then
    u "Macmini" ++ slice_to number x ++ u "," ++ slice_from number (-1)
  else if startswith id (u "MP") then
    u "MacPro" ++ slice_to number x ++ u "," ++ slice_from number (-1)
  else u "Unknown".

End WithUnicode.

Fixpoint getByBoardID_in (table : list (str * str)) (boardID : str) : str :=
  match table with
  | [] => u "Unknown"
  | x :: table' =>
      if str_eqb boardID (fst x) then snd x
      else getByBoardID_in table' boardID
  end.

Definition getByBoardID (boardID : str) : str :=
  getByBoardID_in boardIDModelIDs boardID.

End Model.

(** ** class GUID *)

Module GUID.

(** [id in oldStyleFWModels] for [id = filename.split('_')[0]]; the first
    field of a split always exists. *)
Definition shouldPerformCheck (filename : str) : bool :=
  let id := hd [] (split filename UNDERSCORE) in
  if existsb (str_eqb id) oldStyleFWModels then false else true.

(** Apple UUID C3E36D09-8294-4B97-A857-D5288FE33E28 *)
Definition uuid_MP51 : list byte := b "096de3c39482974ba857d5288fe33e28".
(** Apple UUID 781F254A-C457-5D13-9275-1BF5D56E0724 *)
Definition uuid_781F : list byte := b "4a251f7857c4135d92751bf5d56e0724".
(** Apple UUID 11380FF9-CFBF-5CD5-997E-83FD089569F0 *)
Definition uuid_1138 : list byte := b "f90f3811bfcfd55c997e83fd089569f0".

(** The [while] loop of the MacPro5,1 branch.  When the position has
    reached [filesize - 8] the body does nothing and the next test reads
    the following 16 bytes. *)
Fixpoint search_MP51_loop (fuel : nat) (filesize position : Z) : io Z :=
  match fuel with
  | O => timeout
  | S fuel' =>
      data <- read 16 ;;
      if bytes_eqb (hexlify data) uuid_MP51 then ret position
      else if position <? filesize - 8 then
        let position := position + 4 in
        seek position ;;
        search_MP51_loop fuel' filesize position
      else search_MP51_loop fuel' filesize position
  end.

Definition search_MP51 (fuel : nat) (filesize : Z) : io Z :=
  let position := 0 in
  search_MP51_loop fuel filesize position.

(** The closing [while] loop of the other branch. *)
Fixpoint search_backward_loop (fuel : nat) (position : Z) : io Z :=
  match fuel with
  | O => timeout
  | S fuel' =>
      data <- read 16 ;;
      if bytes_eqb (hexlify data) uuid_781F then ret position
      else if position >? 8 then
        let position := position - 4 in
        seek position ;;
        search_backward_loop fuel' position
      else search_backward_loop fuel' position
  end.

Definition search_candidates (fuel : nat) (filesize : Z) : io Z :=
  let position := 0x98 in
  seek position ;;
  data <- read 16 ;;
  if bytes_eqb (hexlify data) uuid_781F then ret position
  else
    let position := 0x1200 in
    seek position ;;
    data <- read 16 ;;
    if bytes_eqb (hexlify data) uuid_1138 then ret position
    else
      let position := 0x1048 in
      seek position ;;
      data <- read 16 ;;
      if bytes_eqb (hexlify data) uuid_781F then ret position
      else
        let position := filesize - 8 in
        seek position ;;
        search_backward_loop fuel position.

Definition search (fuel : nat) (filesize : Z) (filename : str) : io Z :=
  if startswith filename (u "MP51") then search_MP51 fuel filesize
  else search_candidates fuel filesize.

End GUID.

(** ** class EFI *)

Module EFI.

(** ["$IBIOSI$"] *)
Definition marker : list byte :=
  [Byte.x24; Byte.x49; Byte.x42; Byte.x49;
   Byte.x4f; Byte.x53; Byte.x49; Byte.x24].

(** [platform.system()] is passed in as [system]. *)
Definition shouldWarnAboutUpdate (system rawVersion biosID : str)
  : result bool :=
  if str_eqb system (u "Darwin") then
    result_bind (index (split rawVersion DOT) 4) (fun myBiosDate =>
    result_bind (index (split biosID DOT) 4) (fun field =>
      let biosDate := remove_char field NUL in
      if str_ltb myBiosDate biosDate then Ok true else Ok false))
  else Ok false.

(** The two [while] loops of [getVersion]; each gives the position at
    which the marker was read. *)
Fixpoint scan_backward (fuel : nat) (position : Z) : io Z :=
  match fuel with
  | O => timeout
  | S fuel' =>
      data <- read 8 ;;
      if bytes_eqb data marker then ret position
      else
        let position := position - 4 in
        seek position ;;
        scan_backward fuel' position
  end.

Fixpoint scan_forward (fuel : nat) (position : Z) : io Z :=
  match fuel with
  | O => timeout
  | S fuel' =>
      data <- read 8 ;;
      if bytes_eqb data marker then ret position
      else
        let position := position + 4 in
        seek position ;;
        scan_forward fuel' position
  end.

(** [getVersion] up to its last line: the value is the final [position]. *)
Definition locate (fuel : nat) (position : Z) : io Z :=
  seek position ;;
  if position >? 4096 then scan_backward fuel position
  else scan_forward fuel position.

Definition getVersion (fuel : nat) (position : Z) : io str :=
  locate fuel position ;;
  data <- read 0x41 ;;
  lift (decode_utf8 data).

Section WithUnicode.
Context {db : UnicodeDB}.

Definition getData (fuel : nat) (position : Z) : io (str * str * str) :=
  biosID <- getVersion fuel position ;;
  let model := filter isalnum (hd [] (split biosID DOT)) in
  let modelID := Model.getID model in
  let boardID := BoardID.getByModelID modelID in
  ret (boardID, modelID, biosID).

End WithUnicode.

End EFI.

(** ** main: what is done for one firmware file *)

(** What [main] knows about the machine it runs on. *)
Record host := mkHost {
  platform_system : str;
  myBoardID : str;
  rawVersion : str
}.

(** The values [main] takes when it does not run on macOS. *)
Definition foreign_host (system : str) : host :=
  {| platform_system := system;
     myBoardID := u "Mac-XXXXXXXXXXXXXXXX";
     rawVersion :=
       u "Raw EFI Version string: UNSPEC.00Z.0000.B00.0000000000" |}.

(** The two flags of [main] and the lines printed so far. *)
Record console := mkConsole {
  linePrinted : bool;
  warnAboutEFIVersion : bool;
  stdout : list str
}.

Definition rule : str := repeat 45%N 75.

Definition print (line : str) (c : console) : console :=
  mkConsole (linePrinted c) (warnAboutEFIVersion c) (stdout c ++ [line]).

Definition showSystemData (boardID modelID biosID : str) (c : console)
  : console :=
  let c := if linePrinted c then c else print rule c in
  let c := print (u "> " ++ ljust 20 boardID ++ u " | " ++ ljust 14 modelID
                  ++ u " |" ++ biosID ++ u " <") c in
  let c := print rule c in
  mkConsole true (warnAboutEFIVersion c) (stdout c).

(** The lines of [main] that follow each (boardID, modelID, biosID). *)
Definition report (h : host) (boardID modelID biosID : str) (c : console)
  : result console :=
  if str_eqb boardID (myBoardID h) then
    let c := showSystemData boardID modelID biosID c in
    result_bind
      (EFI.shouldWarnAboutUpdate (platform_system h) (rawVersion h) biosID)
      (fun warn =>
         Ok (if warn then mkConsole (linePrinted c) true (stdout c) else c))
  else
    let c := print (u "  " ++ ljust 20 boardID ++ u " | " ++ ljust 14 modelID
                    ++ u " |" ++ biosID) c in
    Ok (mkConsole false (warnAboutEFIVersion c) (stdout c)).

Fixpoint report_boardIDs (h : host) (boardIDs : list str) (biosID : str)
         (c : console) : result console :=
  match boardIDs with
  | [] => Ok c
  | boardID :: boardIDs' =>
      let modelID := Model.getByBoardID boardID in
      result_bind (report h boardID modelID biosID c)
                  (report_boardIDs h boardIDs' biosID)
  end.

Section Main.
Context {db : UnicodeDB}.

(** The branch of [main] taken when [GUID.shouldPerformCheck] holds.
    [GUID.search] receives the version-search [position] where its
    signature says [filesize]. *)
Definition processWithTable (fuel : nat) (h : host)
           (fileType filename : str) (c : console) : io console :=
  filesize <- st_size ;;
  let position :=
    if str_eqb fileType GLOB_SCAP_EXTENSION then 0xb0 else filesize - 44 in
  biosID <- EFI.getVersion fuel position ;;
  position <- GUID.search fuel position filename ;;
  let trailingBytes := position =? 0x1200 in
  boardIDs <- BoardID.getIDs position trailingBytes ;;
  lift (report_boardIDs h boardIDs biosID c).

(** The [else] branch. *)
Definition processWithoutTable (fuel : nat) (h : host) (c : console)
  : io console :=
  x <- EFI.getData fuel 0xb0 ;;
  let '(boardID, modelID, biosID) := x in
  lift (report h boardID modelID biosID c).

(** The body of [with io.open(firmwareFile, 'rb') as f]. *)
Definition processFile (fuel : nat) (h : host) (fileType filename : str)
           (c : console) : io console :=
  if GUID.shouldPerformCheck filename then
    processWithTable fuel h fileType filename c
  else
    processWithoutTable fuel h c.

End Main.

(** ** Notions the statements use *)

(** The [n] bytes of a file found at offset [p]. *)
Definition bytes_at (data : list byte) (p : Z) (n : nat) : list byte :=
  firstn n (skipn (Z.to_nat p) data).

(** The marker [$IBIOSI$] stands at offset [p]. *)
Definition marker_at (data : list byte) (p : Z) : Prop :=
  0 <= p /\ bytes_at data p 8 = EFI.marker.

(** A byte pattern occurs somewhere in a file. *)
Definition occurs (pattern data : list byte) : Prop :=
  exists c : nat, firstn (length pattern) (skipn c data) = pattern.

(** Reference pattern A, the 16 bytes whose hexadecimal form the MacPro5,1
    branch compares with. *)
Definition pattern_A : list byte :=
  [Byte.x09; Byte.x6d; Byte.xe3; Byte.xc3; Byte.x94; Byte.x82; Byte.x97;
   Byte.x4b; Byte.xa8; Byte.x57; Byte.xd5; Byte.x28; Byte.x8f; Byte.xe3;
   Byte.x3e; Byte.x28].

(** Where the scan of [EFI.getVersion] reads after [k] steps from the
    starting offset [o]: backward above the threshold of 4096, forward
    otherwise. *)
Definition scan_target (o : Z) (k : nat) : Z :=
  if o >? 4096 then o - 4 * Z.of_nat k else o + 4 * Z.of_nat k.

(** The marker stands at the [k]-th offset of the scan and at none of the
    offsets tried before. *)
Definition first_marker (data : list byte) (o : Z) (k : nat) : Prop :=
  0 <= o /\
  marker_at data (scan_target o k) /\
  forall j, (j < k)%nat -> ~ marker_at data (scan_target o j).

(** Decidable form of [occurs]: an occurrence starts inside the file. *)
Definition occursb (pattern data : list byte) : bool :=
  existsb (fun c => bytes_eqb (firstn (length pattern) (skipn c data)) pattern)
          (seq 0 (S (length data))).

(** Lexicographic order on text, as a relation. *)
Inductive lex_lt : str -> str -> Prop :=
| lex_lt_nil : forall d t, lex_lt [] (d :: t)
| lex_lt_head : forall c d s t, (c < d)%N -> lex_lt (c :: s) (d :: t)
| lex_lt_tail : forall c s t, lex_lt s t -> lex_lt (c :: s) (c :: t).

(** [sep.join(fields)] *)
Fixpoint join (sep : codepoint) (fields : list str) : str :=
  match fields with
  | [] => []
  | [field] => field
  | field :: fields' => field ++ sep :: join sep fields'
  end.

(** The upper-case hexadecimal digits of a byte string, written out
    directly. *)
Definition HEXDIGITS : str := u "0123456789ABCDEF".

Definition is_upper_hex (c : codepoint) : bool :=
  existsb (N.eqb c) HEXDIGITS.

Definition upper_hex (code : list byte) : str :=
  flat_map (fun x => [nth (N.to_nat (Byte.to_N x / 16)) HEXDIGITS 0%N;
                      nth (N.to_nat (Byte.to_N x mod 16)) HEXDIGITS 0%N])
           code.

(** Value of an upper-case hexadecimal digit. *)
Definition hexval (c : codepoint) : N :=
  if (c <? 58)%N then (c - 48)%N else (c - 55)%N.

(** A HardwareIdentifier as the specification writes it. *)
Definition hardwareIdentifier (code : list byte) : str :=
  u "Mac-" ++ upper_hex code.

(** A code of the identifier table that is not the unused slot. *)
Definition valid_code (code : list byte) : Prop :=
  length code = 8%nat /\ code <> BoardID.unused.

(** Offset of the [i]-th code the walker reads after the anchor
    [position]: 20 bytes of header, 8 bytes skipped, then one slot every 8
    bytes, or every 10 with trailing bytes. *)
Definition stride (trailingBytes : bool) : Z :=
  if trailingBytes then 10 else 8.

Definition slot (position : Z) (trailingBytes : bool) (i : nat) : Z :=
  position + 28 + stride trailingBytes * Z.of_nat i.

(** A 65-byte version record holding [fields]: the text
    [field.field.field.field.field] as two-byte characters (the character,
    then a null byte), filled up with null bytes. *)
Definition utf16_units (text : str) : str :=
  flat_map (fun c => [c; NUL]) text.

Definition plain_char (c : codepoint) : Prop :=
  (0 < c < 128)%N /\ c <> DOT.

Definition version_record (record : list byte) (fields : list str) : Prop :=
  length record = 65%nat /\
  length fields = 5%nat /\
  Forall (Forall plain_char) fields /\
  exists padding : nat,
    map Byte.to_N record
    = utf16_units (join DOT fields) ++ repeat NUL padding.

(** No identifier is listed twice in a table. *)
Fixpoint ids_distinct (table : list (str * str)) : bool :=
  match table with
  | [] => true
  | x :: table' =>
      negb (existsb (fun y => str_eqb (fst y) (fst x)) table')
      && ids_distinct table'
  end.

(** How many entries of a table carry a model name; it is unique when
    there is one. *)
Definition occurrences_in (table : list (str * str)) (model : str) : nat :=
  length (filter (fun x => str_eqb (snd x) model) table).

(** Which anchor search [main] runs for a file name. *)
Inductive route := LegacyForwardScan | FixedCandidateOffsets | NoAnchorSearch.

Definition anchor_route (filename : str) : route :=
  if GUID.shouldPerformCheck filename then
    if startswith filename (u "MP51") then LegacyForwardScan
    else FixedCandidateOffsets
  else NoAnchorSearch.

(** The family prefixes and names of the specification's table. *)
Definition family_prefixes : list str :=
  map u ["IMP"; "IM"; "MBP"; "MBA"; "MB"; "MM"; "MP"]%string.

Definition family_names : list str :=
  map u ["iMacPro"; "iMac"; "MacBookPro"; "MacBookAir"; "MacBook";
         "Macmini"; "MacPro"]%string.

(** ["<family><major>,<minor>"]: the last digit is the minor part, the
    digits before it the major part. *)
Definition modelName (family number : str) : str :=
  family ++ removelast number ++ u ","
         ++ skipn (length number - 1) number.

(** The record of the comment in [EFI.getVersion], behind the marker at
    offset 0xb0 of an otherwise empty image, and its five fields. *)
Definition sample_record : list byte :=
  flat_map (fun x => [x; Byte.x00]) (b "   IM101.88Z.00CF.B00.1708080133")
  ++ [Byte.x00].

Definition sample_image : list byte :=
  repeat Byte.x00 176 ++ EFI.marker ++ sample_record.

Definition sample_fields : list str :=
  map u ["   IM101"; "88Z"; "00CF"; "B00"; "1708080133"]%string.

(** An image named after the MacPro5,1: the sample image with the model
    token MP51, which holds reference pattern A nowhere. *)
Definition MP51_image : list byte :=
  repeat Byte.x00 176 ++ EFI.marker
  ++ flat_map (fun x => [x; Byte.x00]) (b "    MP51.88Z.007F.B03.1707271564")
  ++ [Byte.x00].

(** The family prefixes in the order [Model.getID] can reach them, with the
    family each one selects. *)
Definition reachable_families : list (str * str) :=
  map (fun x => (u (fst x), u (snd x)))
      [("IM", "iMac"); ("MBP", "MacBookPro"); ("MBA", "MacBookAir");
       ("MB", "MacBook"); ("MM", "Macmini"); ("MP", "MacPro")]%string.

(** Reference patterns B and C, the 16 bytes whose hexadecimal forms the
    other branch of [GUID.search] compares with. *)
Definition pattern_B : list byte :=
  [Byte.x4a; Byte.x25; Byte.x1f; Byte.x78; Byte.x57; Byte.xc4; Byte.x13;
   Byte.x5d; Byte.x92; Byte.x75; Byte.x1b; Byte.xf5; Byte.xd5; Byte.x6e;
   Byte.x07; Byte.x24].

Definition pattern_C : list byte :=
  [Byte.xf9; Byte.x0f; Byte.x38; Byte.x11; Byte.xbf; Byte.xcf; Byte.xd5;
   Byte.x5c; Byte.x99; Byte.x7e; Byte.x83; Byte.xfd; Byte.x08; Byte.x95;
   Byte.x69; Byte.xf0].

(** The line [main] prints for an identifier that is not the host's. *)
Definition plain_row (boardID modelID biosID : str) : str :=
  u "  " ++ ljust 20 boardID ++ u " | " ++ ljust 14 modelID
  ++ u " |" ++ biosID.

(** None of the three fixed candidate offsets of [GUID.search] holds its
    pattern. *)
Definition fixed_candidates_fail (data : list byte) : Prop :=
  bytes_at data 0x98 16 <> pattern_B /\
  bytes_at data 0x1200 16 <> pattern_C /\
  bytes_at data 0x1048 16 <> pattern_B.

(** A small image with the table layout of the first candidate offset:
    pattern B at 0x98, one code and the unused slot from offset 180 on, and
    behind them the marker with the sample record. *)
Definition table_image : list byte :=
  repeat Byte.x00 152 ++ pattern_B ++ repeat Byte.x00 12
  ++ [Byte.xf2; Byte.x21; Byte.xdc; Byte.xc8; Byte.x00; Byte.x00; Byte.x00;
      Byte.x00]
  ++ BoardID.unused ++ EFI.marker ++ sample_record.

(** ** Basic facts about the Python values *)

Lemma str_eqb_eq (s t : str) : str_eqb s t = true <-> s = t.
Proof.
  revert t; induction s as [|c s IH]; intros [|d t]; simpl;
    try (split; [discriminate | discriminate]); try tauto.
  rewrite andb_true_iff, N.eqb_eq, IH.
  split; [intros [-> ->]; reflexivity | intros [= -> ->]; auto].
Qed.

Lemma str_eqb_refl (s : str) : str_eqb s s = true.
Proof. apply str_eqb_eq; reflexivity. Qed.

Lemma bytes_eqb_eq (x y : list byte) : bytes_eqb x y = true <-> x = y.
Proof.
  revert y; induction x as [|c x IH]; intros [|d y]; simpl;
    try (split; [discriminate | discriminate]); try tauto.
  rewrite andb_true_iff, IH. split.
  - intros [H ->]. apply Byte.byte_dec_bl in H. congruence.
  - intros [= -> ->]. split; [apply Byte.byte_dec_lb|]; reflexivity.
Qed.

Lemma bytes_eqb_neq (x y : list byte) : x <> y -> bytes_eqb x y = false.
Proof.
  intros H. destruct (bytes_eqb x y) eqn:E; [|reflexivity].
  apply bytes_eqb_eq in E. contradiction.
Qed.

Lemma str_ltb_lex_lt (s t : str) : str_ltb s t = true <-> lex_lt s t.
Proof.
  split.
  - revert t; induction s as [|c s IH]; intros [|d t]; simpl;
      try discriminate; [constructor|].
    destruct (c <? d)%N eqn:Hlt.
    + intros _. apply lex_lt_head, N.ltb_lt, Hlt.
    + destruct (c =? d)%N eqn:Heq; [|discriminate].
      apply N.eqb_eq in Heq; subst d. intros H. apply lex_lt_tail, IH, H.
  - induction 1 as [d t|c d s t Hlt|c s t _ IH]; simpl.
    + reflexivity.
    + apply N.ltb_lt in Hlt. rewrite Hlt. reflexivity.
    + rewrite N.ltb_irrefl, N.eqb_refl. exact IH.
Qed.

Lemma lex_lt_irrefl (s : str) : ~ lex_lt s s.
Proof.
  induction s as [|c s IH]; intros H; inversion H; subst.
  - lia.
  - auto.
Qed.

Lemma startswith_app (s prefix : str) :
  startswith s prefix = true <-> exists rest, s = prefix ++ rest.
Proof.
  revert s; induction prefix as [|p prefix IH]; intros s; simpl.
  - split; [exists s; reflexivity | reflexivity].
  - destruct s as [|c s].
    + split; [discriminate | intros [rest H]; discriminate].
    + rewrite andb_true_iff, N.eqb_eq, IH. split.
      * intros [-> [rest ->]]. exists rest. reflexivity.
      * intros [rest [= -> ->]].
        split; [reflexivity | exists rest; reflexivity].
Qed.

Lemma startswith_shorter (s p q : str) :
  startswith s (p ++ q) = true -> startswith s p = true.
Proof.
  rewrite !startswith_app. intros [rest ->].
  exists (q ++ rest). rewrite app_assoc. reflexivity.
Qed.

Lemma split_nonempty (s : str) (sep : codepoint) : split s sep <> [].
Proof.
  destruct s as [|c s]; simpl; [discriminate|].
  destruct (c =? sep)%N; [discriminate|].
  destruct (split s sep); discriminate.
Qed.

(** ** Model.getID *)

Section GetID.
Context {db : UnicodeDB}.

Lemma slice_to_all_but_last (number : str) :
  slice_to number (Z.of_nat (length number) - 1) = removelast number.
Proof.
  unfold slice_to, clamp_index.
  destruct number as [|c number]; [reflexivity|].
  replace (Z.of_nat (length (c :: number)) - 1 <? 0) with false
    by (symmetry; apply Z.ltb_ge; simpl length; lia).
  rewrite Z.min_l by lia.
  replace (Z.to_nat (Z.of_nat (length (c :: number)) - 1))
    with (length number) by (simpl length; lia).
  revert c; induction number as [|d number IH]; intros c; [reflexivity|].
  change (removelast (c :: d :: number)) with (c :: removelast (d :: number)).
  rewrite <- IH. reflexivity.
Qed.

Lemma slice_from_last (number : str) :
  slice_from number (-1) = skipn (length number - 1) number.
Proof.
  unfold slice_from, clamp_index.
  change (-1 <? 0) with true. cbv iota. f_equal. lia.
Qed.

Lemma getID_IM (id : str) :
  startswith id (u "IM") = true ->
  Model.getID id
  = modelName (u "iMac") (filter isdigit id).
Proof.
  intros H. unfold Model.getID, modelName. rewrite H.
  rewrite slice_to_all_but_last, slice_from_last. reflexivity.
Qed.

End GetID.

Ltac prefix_cases :=
  repeat match goal with
         | H : startswith _ _ = true |- _ =>
             apply startswith_app in H; destruct H as [? ->]
         end.

(** C3 (as the code has it): a token that starts with [IMP] also starts
    with [IM], and that test comes first, so [Model.getID] answers with the
    iMac family, never with iMacPro. *)
Theorem getID_IMP_selects_iMac (db : UnicodeDB) (id : str) :
  startswith id (u "IMP") = true ->
  Model.getID id = modelName (u "iMac") (filter isdigit id) /\
  Model.getID id <> modelName (u "iMacPro") (filter isdigit id).
Proof.
  intros H.
  assert (E : Model.getID id = modelName (u "iMac") (filter isdigit id)).
  { apply getID_IM. apply (startswith_shorter id (u "IM") (u "P")), H. }
  split; [exact E|]. rewrite E. intros C.
  apply (f_equal (@length codepoint)) in C.
  unfold modelName in C. rewrite !length_app in C. simpl in C. lia.
Qed.

Lemma getID_IMP_selects_iMac_witness :
  startswith (u "IMP11") (u "IMP") = true /\
  @Model.getID asciiDB (u "IMP11") = u "iMac1,1" /\
  @Model.getID asciiDB (u "IMP11") <> u "iMacPro1,1".
Proof.
  split; [reflexivity|].
  exact (getID_IMP_selects_iMac asciiDB (u "IMP11") eq_refl).
Defined.

(** C10: a token that starts with a recognized family prefix and holds no
    digit gives the family name and a comma, with empty major and minor
    parts; the answer is never [Unknown]. *)
Theorem getID_without_digits (db : UnicodeDB) (id : str) :
  filter isdigit id = [] ->
  existsb (startswith id) family_prefixes = true ->
  Model.getID id <> u "Unknown" /\
  (exists family, In family family_names /\ Model.getID id = family ++ u ",") /\
  (startswith id (u "IM") = true -> Model.getID id = u "iMac,") /\
  (startswith id (u "MBP") = true -> Model.getID id = u "MacBookPro,") /\
  (startswith id (u "MBA") = true -> Model.getID id = u "MacBookAir,") /\
  (startswith id (u "MB") = true -> startswith id (u "MBP") = false ->
   startswith id (u "MBA") = false -> Model.getID id = u "MacBook,") /\
  (startswith id (u "MM") = true -> Model.getID id = u "Macmini,") /\
  (startswith id (u "MP") = true -> Model.getID id = u "MacPro,").
Proof.
  intros Hnum Hpre.
  assert (Hcases :
    (startswith id (u "IM") = true -> Model.getID id = u "iMac,") /\
    (startswith id (u "MBP") = true -> Model.getID id = u "MacBookPro,") /\
    (startswith id (u "MBA") = true -> Model.getID id = u "MacBookAir,") /\
    (startswith id (u "MB") = true -> startswith id (u "MBP") = false ->
     startswith id (u "MBA") = false -> Model.getID id = u "MacBook,") /\
    (startswith id (u "MM") = true -> Model.getID id = u "Macmini,") /\
    (startswith id (u "MP") = true -> Model.getID id = u "MacPro,")).
  { unfold Model.getID. rewrite Hnum.
    repeat split; intros H.
    - rewrite H. reflexivity.
    - prefix_cases. reflexivity.
    - prefix_cases. reflexivity.
    - intros H1 H2. rewrite H1, H2, H.
      prefix_cases. reflexivity.
    - prefix_cases. reflexivity.
    - prefix_cases. reflexivity. }
  destruct Hcases as (HIM & HMBP & HMBA & HMB & HMM & HMP).
  assert (Hfam : exists family,
             In family family_names /\ Model.getID id = family ++ u ",").
  { unfold family_prefixes in Hpre. simpl in Hpre.
    repeat rewrite orb_true_iff in Hpre.
    destruct Hpre as [H|[H|[H|[H|[H|[H|[H|H]]]]]]]; try discriminate.
    - apply (startswith_shorter id (u "IM") (u "P")) in H.
      exists (u "iMac"). split; [simpl; tauto | auto].
    - exists (u "iMac"). split; [simpl; tauto | auto].
    - exists (u "MacBookPro"). split; [simpl; tauto | auto].
    - exists (u "MacBookAir"). split; [simpl; tauto | auto].
    - destruct (startswith id (u "MBP")) eqn:E1;
        [exists (u "MacBookPro"); split; [simpl; tauto | auto]|].
      destruct (startswith id (u "MBA")) eqn:E2;
        [exists (u "MacBookAir"); split; [simpl; tauto | auto]|].
      exists (u "MacBook"). split; [simpl; tauto | auto].
    - exists (u "Macmini"). split; [simpl; tauto | auto].
    - exists (u "MacPro"). split; [simpl; tauto | auto]. }
  split; [|split; [exact Hfam | repeat split; assumption]].
  destruct Hfam as (family & Hin & ->). intros C.
  simpl in Hin.
  destruct Hin as [<-|[<-|[<-|[<-|[<-|[<-|[<-|[]]]]]]]]; discriminate C.
Qed.

Lemma getID_without_digits_witness :
  @Model.getID asciiDB (u "IM") = u "iMac,".
Proof.
  assert (H1 : filter (@isdigit asciiDB) (u "IM") = []) by reflexivity.
  assert (H2 : existsb (startswith (u "IM")) family_prefixes = true)
    by reflexivity.
  exact (proj1 (proj2 (proj2 (getID_without_digits asciiDB (u "IM") H1 H2)))
               eq_refl).
Defined.

(** ** The registry: lookups in both directions *)

Section Registry.
Variable table : list (str * str).

Lemma getByBoardID_in_listed (id model : str) :
  ids_distinct table = true ->
  In (id, model) table ->
  Model.getByBoardID_in table id = model.
Proof.
  induction table as [|x t IH]; simpl; [tauto|].
  intros Hd Hin. apply andb_true_iff in Hd. destruct Hd as [Hx Hd].
  destruct Hin as [->|Hin]; simpl.
  - rewrite str_eqb_refl. reflexivity.
  - destruct (str_eqb id (fst x)) eqn:E; [|auto].
    apply str_eqb_eq in E. subst id.
    apply negb_true_iff in Hx.
    assert (Hex : existsb (fun y => str_eqb (fst y) (fst x)) t = true).
    { apply existsb_exists. exists (fst x, model).
      split; [exact Hin | apply str_eqb_refl]. }
    congruence.
Qed.

Lemma getByModelID_in_unique (id model : str) :
  occurrences_in table model = 1%nat ->
  In (id, model) table ->
  BoardID.getByModelID_in table model = id.
Proof.
  unfold occurrences_in.
  induction table as [|x t IH]; simpl; [tauto|].
  intros Hc Hin.
  destruct (str_eqb (snd x) model) eqn:E.
  - apply str_eqb_eq in E.
    replace (str_eqb model (snd x)) with true
      by (symmetry; apply str_eqb_eq; congruence).
    destruct Hin as [->|Hin]; [reflexivity|].
    simpl in Hc.
    assert (Hmem : In (id, model)
                     (filter (fun y => str_eqb (snd y) model) t)).
    { apply filter_In. split; [exact Hin | apply str_eqb_refl]. }
    destruct (filter (fun y => str_eqb (snd y) model) t);
      [destruct Hmem | discriminate Hc].
  - destruct (str_eqb model (snd x)) eqn:E'.
    + apply str_eqb_eq in E'. subst model.
      rewrite str_eqb_refl in E. discriminate.
    + destruct Hin as [->|Hin]; [|auto].
      simpl in E. rewrite str_eqb_refl in E. discriminate.
Qed.

End Registry.

Lemma boardIDModelIDs_ids_distinct : ids_distinct boardIDModelIDs = true.
Proof. vm_compute. reflexivity. Qed.

(** C6: for an identifier of the table whose model name is paired with no
    other identifier, looking up the model and then the identifier of that
    model gives the identifier back. *)
Theorem getByModelID_getByBoardID (id model : str) :
  In (id, model) boardIDModelIDs ->
  occurrences_in boardIDModelIDs model = 1%nat ->
  BoardID.getByModelID (Model.getByBoardID id) = id.
Proof.
  intros Hin Hone. unfold BoardID.getByModelID, Model.getByBoardID.
  rewrite (getByBoardID_in_listed boardIDModelIDs id model
             boardIDModelIDs_ids_distinct Hin).
  exact (getByModelID_in_unique boardIDModelIDs id model Hone Hin).
Qed.

Lemma getByModelID_getByBoardID_witness :
  BoardID.getByModelID (Model.getByBoardID (u "Mac-F221DCC8"))
  = u "Mac-F221DCC8".
Proof.
  apply (getByModelID_getByBoardID (u "Mac-F221DCC8") (u "MacPro5,1")).
  - unfold boardIDModelIDs.
    apply (in_map (fun x => (u (fst x), u (snd x))) _
                  ("Mac-F221DCC8", "MacPro5,1")%string).
    simpl. repeat (try (left; reflexivity); right).
  - vm_compute. reflexivity.
Defined.

(** ** EFI.shouldWarnAboutUpdate *)

Lemma index_in_range {A} (l : list A) (i : nat) :
  (i < length l)%nat -> exists x, nth_error l i = Some x /\ index l i = Ok x.
Proof.
  intros H. unfold index.
  destruct (nth_error l i) as [x|] eqn:E.
  - exists x. auto.
  - apply nth_error_None in E. lia.
Qed.

(** C7: on macOS, with at least five dot-delimited fields on both sides,
    the advisor answers true exactly when the fifth field of the reference
    is lexicographically below the fifth field of the candidate with its
    null characters removed; so 1706010000 against 1708080133 gives true,
    and equal dates give false. *)
Theorem shouldWarnAboutUpdate_iff_older (rawVersion biosID : str) :
  (5 <= length (split rawVersion DOT))%nat ->
  (5 <= length (split biosID DOT))%nat ->
  exists myBiosDate field,
    nth_error (split rawVersion DOT) 4 = Some myBiosDate /\
    nth_error (split biosID DOT) 4 = Some field /\
    let biosDate := remove_char field NUL in
    (exists answer,
       EFI.shouldWarnAboutUpdate (u "Darwin") rawVersion biosID = Ok answer) /\
    (EFI.shouldWarnAboutUpdate (u "Darwin") rawVersion biosID = Ok true
     <-> lex_lt myBiosDate biosDate) /\
    (myBiosDate = u "1706010000" -> biosDate = u "1708080133" ->
     EFI.shouldWarnAboutUpdate (u "Darwin") rawVersion biosID = Ok true) /\
    (myBiosDate = biosDate ->
     EFI.shouldWarnAboutUpdate (u "Darwin") rawVersion biosID = Ok false).
Proof.
  intros Hraw Hbios.
  destruct (index_in_range (split rawVersion DOT) 4) as (my & Hmy & Imy);
    [lia|].
  destruct (index_in_range (split biosID DOT) 4) as (field & Hf & If);
    [lia|].
  exists my, field. split; [exact Hmy|]. split; [exact Hf|]. cbv zeta.
  assert (E : EFI.shouldWarnAboutUpdate (u "Darwin") rawVersion biosID
              = Ok (str_ltb my (remove_char field NUL))).
  { unfold EFI.shouldWarnAboutUpdate.
    rewrite str_eqb_refl, Imy, If. simpl.
    destruct (str_ltb my (remove_char field NUL)); reflexivity. }
  rewrite E. repeat split.
  - eexists; reflexivity.
  - intros [= H]. apply str_ltb_lex_lt, H.
  - intros H. apply str_ltb_lex_lt in H. rewrite H. reflexivity.
  - intros -> ->. reflexivity.
  - intros ->. destruct (str_ltb _ _) eqn:L; [|reflexivity].
    apply str_ltb_lex_lt in L. destruct (lex_lt_irrefl _ L).
Qed.

Lemma shouldWarnAboutUpdate_iff_older_witness :
  EFI.shouldWarnAboutUpdate (u "Darwin")
    (u "MP51.88Z.007F.B03.1706010000")
    (u "MP51.88Z.0084.B00.1708080133") = Ok true.
Proof.
  destruct (shouldWarnAboutUpdate_iff_older
              (u "MP51.88Z.007F.B03.1706010000")
              (u "MP51.88Z.0084.B00.1708080133"))
    as (my & field & Hmy & Hf & _ & _ & Hex & _).
  - vm_compute. lia.
  - vm_compute. lia.
  - apply Hex.
    + vm_compute in Hmy. injection Hmy as <-. reflexivity.
    + vm_compute in Hf. injection Hf as <-. reflexivity.
Defined.

(** ** Hexadecimal rendering and decoding *)

Lemma decode_utf8_ascii (data : list byte) :
  Forall (fun x => (Byte.to_N x < 128)%N) data ->
  decode_utf8 data = Ok (map Byte.to_N data).
Proof.
  induction 1 as [|x data Hx _ IH]; [reflexivity|].
  cbn [decode_utf8 map]. apply N.ltb_lt in Hx. rewrite Hx, IH. reflexivity.
Qed.

Lemma hexlify_byte_ascii (x : byte) :
  Forall (fun y => (Byte.to_N y < 128)%N) (hexlify_byte x).
Proof. destruct x; repeat constructor. Qed.

Lemma hexlify_ascii (data : list byte) :
  Forall (fun y => (Byte.to_N y < 128)%N) (hexlify data).
Proof.
  induction data as [|x data IH]; [constructor|].
  unfold hexlify. cbn [flat_map]. apply Forall_app. split.
  - apply hexlify_byte_ascii.
  - exact IH.
Qed.

Lemma upper_hexlify_byte (x : byte) :
  upper (map Byte.to_N (hexlify_byte x)) = upper_hex [x].
Proof. destruct x; reflexivity. Qed.

Lemma upper_hexlify (data : list byte) :
  upper (map Byte.to_N (hexlify data)) = upper_hex data.
Proof.
  induction data as [|x data IH]; [reflexivity|].
  change (hexlify (x :: data)) with (hexlify_byte x ++ hexlify data).
  change (upper_hex (x :: data)) with (upper_hex [x] ++ upper_hex data).
  rewrite <- IH, <- upper_hexlify_byte. unfold upper.
  rewrite !map_app. reflexivity.
Qed.

Lemma render_hardwareIdentifier (code : list byte) :
  BoardID.render code = Ok (hardwareIdentifier code).
Proof.
  unfold BoardID.render, hardwareIdentifier.
  rewrite decode_utf8_ascii by apply hexlify_ascii.
  cbn [result_bind]. rewrite upper_hexlify. reflexivity.
Qed.

Lemma upper_hex_length (code : list byte) :
  length (upper_hex code) = (2 * length code)%nat.
Proof.
  induction code as [|x code IH]; [reflexivity|].
  unfold upper_hex in *. cbn [flat_map length app]. rewrite IH. lia.
Qed.

Lemma upper_hex_digits (code : list byte) :
  forallb is_upper_hex (upper_hex code) = true.
Proof.
  induction code as [|x code IH]; [reflexivity|].
  unfold upper_hex in *. cbn [flat_map app forallb]. rewrite IH.
  destruct x; reflexivity.
Qed.

Lemma unhex_byte (x : byte) :
  match upper_hex [x] with
  | [hi; lo] => Byte.of_N (16 * hexval hi + hexval lo)
  | _ => None
  end = Some x.
Proof. destruct x; reflexivity. Qed.

Lemma upper_hex_injective (x y : list byte) :
  upper_hex x = upper_hex y -> x = y.
Proof.
  revert y; induction x as [|a x IH]; intros [|c y]; try discriminate;
    [reflexivity|].
  intros H.
  assert (Hhead : upper_hex [a] = upper_hex [c])
    by exact (f_equal (firstn 2) H).
  assert (Htail : upper_hex x = upper_hex y)
    by exact (f_equal (skipn 2) H).
  f_equal; [|apply IH, Htail].
  pose proof (unhex_byte a) as Ha. rewrite Hhead, unhex_byte in Ha.
  congruence.
Qed.

Lemma hexlify_injective (x y : list byte) : hexlify x = hexlify y -> x = y.
Proof.
  intros H. apply upper_hex_injective.
  rewrite <- !upper_hexlify, H. reflexivity.
Qed.

Lemma hardwareIdentifier_injective (x y : list byte) :
  hardwareIdentifier x = hardwareIdentifier y -> x = y.
Proof.
  unfold hardwareIdentifier. intros H.
  apply app_inv_head in H. apply upper_hex_injective, H.
Qed.

(** ** Steps of the file monad *)

Lemma bind_seek {A} (position : Z) (k : unit -> io A) (f : file) :
  0 <= position ->
  bind (seek position) k f = k tt (mkFile (content f) position).
Proof.
  intros H. unfold bind, seek.
  replace (position <? 0) with false by (symmetry; apply Z.ltb_ge, H).
  reflexivity.
Qed.

Lemma bind_read {A} (n : nat) (k : list byte -> io A) (f : file) :
  bind (read n) k f
  = let data := bytes_at (content f) (cursor f) n in
    k data (mkFile (content f) (cursor f + Z.of_nat (length data))).
Proof. reflexivity. Qed.

Lemma bind_lift_Ok {A B} (a : A) (k : A -> io B) (f : file) :
  bind (lift (Ok a)) k f = k a f.
Proof. reflexivity. Qed.

Lemma bytes_at_length (data : list byte) (p : Z) (n : nat) :
  (length (bytes_at data p n) <= n)%nat.
Proof. unfold bytes_at. rewrite length_firstn. lia. Qed.

Lemma bytes_at_inside (data : list byte) (p : Z) (n : nat) :
  0 <= p -> p + Z.of_nat n <= Z.of_nat (length data) ->
  length (bytes_at data p n) = n.
Proof.
  intros H0 H. unfold bytes_at. rewrite length_firstn, length_skipn. lia.
Qed.

(** ** BoardID.getIDs *)

Section Walker.
Variable trailingBytes : bool.

Lemma getIDs_loop_step (n : nat) (position : Z) (boardIDs : list str)
      (f : file) :
  0 <= position + 8 ->
  let code := bytes_at (content f) (position + 8) 8 in
  BoardID.getIDs_loop (S n) position trailingBytes boardIDs f
  = if bytes_eqb code BoardID.unused
    then Ok (boardIDs,
             mkFile (content f) (position + 8 + Z.of_nat (length code)))
    else BoardID.getIDs_loop n (position + stride trailingBytes) trailingBytes
           (boardIDs ++ [hardwareIdentifier code])
           (mkFile (content f) (position + 8 + Z.of_nat (length code))).
Proof.
  intros Hpos code. cbn [BoardID.getIDs_loop].
  rewrite bind_seek by exact Hpos. rewrite bind_read. cbn [content cursor].
  fold code. destruct (bytes_eqb code BoardID.unused); [reflexivity|].
  rewrite render_hardwareIdentifier, bind_lift_Ok.
  unfold stride. destruct trailingBytes.
  - replace (position + 8 + 2) with (position + 10) by lia. reflexivity.
  - reflexivity.
Qed.

(** Whatever the file holds, the walk ends after the first [m] slots, at
    most [n]: those that come before the first slot read as the unused
    code.  The identifiers added render, in order, the bytes read at these
    slots. *)
Lemma getIDs_loop_exact (n : nat) :
  forall (position : Z) (boardIDs : list str) (f : file),
    0 <= position + 8 ->
    exists (m : nat) (f' : file),
      (m <= n)%nat /\
      BoardID.getIDs_loop n position trailingBytes boardIDs f
      = Ok (boardIDs
            ++ map (fun i =>
                      hardwareIdentifier
                        (bytes_at (content f)
                           (position + 8 + stride trailingBytes * Z.of_nat i)
                           8))
                   (seq 0 m),
            f') /\
      (forall i, (i < m)%nat ->
         bytes_at (content f)
                  (position + 8 + stride trailingBytes * Z.of_nat i) 8
         <> BoardID.unused) /\
      ((m < n)%nat ->
       bytes_at (content f)
                (position + 8 + stride trailingBytes * Z.of_nat m) 8
       = BoardID.unused).
Proof.
  induction n as [|n IH]; intros position boardIDs f Hpos.
  - exists 0%nat, f. cbn. rewrite app_nil_r.
    repeat split; try reflexivity; intros; lia.
  - rewrite getIDs_loop_step by exact Hpos. cbv zeta.
    set (code := bytes_at (content f) (position + 8) 8).
    assert (Ecode : bytes_at (content f)
                      (position + 8 + stride trailingBytes * Z.of_nat 0) 8
                    = code) by (unfold code; f_equal; lia).
    destruct (bytes_eqb code BoardID.unused) eqn:E.
    + exists 0%nat. eexists. cbn [seq map]. rewrite app_nil_r.
      split; [lia|]. split; [reflexivity|]. split; [intros; lia|].
      intros _. rewrite Ecode. apply bytes_eqb_eq, E.
    + assert (Hs : 0 <= position + stride trailingBytes + 8)
        by (unfold stride; destruct trailingBytes; lia).
      destruct (IH (position + stride trailingBytes)
                   (boardIDs ++ [hardwareIdentifier code])
                   (mkFile (content f)
                           (position + 8 + Z.of_nat (length code))) Hs)
        as (m & f' & Hm & Hrun & Hvalid & Hend).
      cbn [content] in Hrun, Hvalid, Hend.
      assert (Hshift : forall i,
                bytes_at (content f)
                  (position + stride trailingBytes + 8
                   + stride trailingBytes * Z.of_nat i) 8
                = bytes_at (content f)
                    (position + 8 + stride trailingBytes * Z.of_nat (S i)) 8)
        by (intros i; f_equal; lia).
      exists (S m), f'. split; [lia|]. split; [|split].
      * rewrite Hrun, <- app_assoc. cbn [seq map app]. rewrite Ecode.
        rewrite <- seq_shift, map_map.
        rewrite (map_ext _ _ (fun i => f_equal hardwareIdentifier (Hshift i))).
        reflexivity.
      * intros i Hi. destruct i as [|i].
        -- rewrite Ecode. intros C. rewrite C in E.
           assert (T : bytes_eqb BoardID.unused BoardID.unused = true)
             by reflexivity.
           congruence.
        -- rewrite <- Hshift. apply Hvalid. lia.
      * intros Hlt. rewrite <- Hshift. apply Hend. lia.
Qed.

(** A table of non-sentinel codes in the slots, closed by the unused code
    unless it fills all [n] slots, is returned as it stands. *)
Lemma getIDs_loop_table (codes : list (list byte)) :
  forall (n : nat) (position : Z) (boardIDs : list str) (f : file),
    0 <= position + 8 ->
    (0 < n)%nat ->
    (length codes <= n)%nat ->
    Forall valid_code codes ->
    (forall i code, nth_error codes i = Some code ->
       bytes_at (content f)
                (position + 8 + stride trailingBytes * Z.of_nat i) 8
       = code) ->
    ((length codes < n)%nat ->
       bytes_at (content f)
                (position + 8
                 + stride trailingBytes * Z.of_nat (length codes)) 8
       = BoardID.unused) ->
    BoardID.getIDs_loop n position trailingBytes boardIDs f
    = Ok (boardIDs ++ map hardwareIdentifier codes,
          mkFile (content f)
                 (position + 8
                  + stride trailingBytes
                    * Z.of_nat (Nat.min (length codes) (n - 1))
                  + 8)).
Proof.
  induction codes as [|code codes IH];
    intros n position boardIDs f Hpos Hn Hlen Hvalid Hslots Hend.
  - destruct n as [|n]; [lia|].
    rewrite getIDs_loop_step by exact Hpos. cbv zeta.
    cbn [length] in Hend.
    replace (position + 8 + stride trailingBytes * Z.of_nat 0)
      with (position + 8) in Hend by lia.
    rewrite Hend by lia.
    change (bytes_eqb BoardID.unused BoardID.unused) with true. cbv iota.
    cbn [map length Nat.min]. rewrite app_nil_r.
    change (length BoardID.unused) with 8%nat.
    do 3 f_equal. lia.
  - destruct n as [|n]; [lia|].
    rewrite getIDs_loop_step by exact Hpos. cbv zeta.
    pose proof (Hslots 0%nat code eq_refl) as H0.
    replace (position + 8 + stride trailingBytes * Z.of_nat 0)
      with (position + 8) in H0 by lia.
    rewrite H0.
    inversion Hvalid as [|? ? [Hl Hne] Hvalid']; subst.
    rewrite (bytes_eqb_neq _ _ Hne). rewrite Hl.
    assert (Hs : 0 <= position + stride trailingBytes + 8)
      by (unfold stride; destruct trailingBytes; lia).
    cbn [length] in Hlen, Hend.
    destruct n as [|n].
    + destruct codes; [|cbn in Hlen; lia].
      cbn [BoardID.getIDs_loop map length Nat.min Nat.sub]. unfold ret.
      do 3 f_equal. lia.
    + rewrite IH; try assumption; try lia.
      * rewrite <- app_assoc. cbn [content map app length].
        do 3 f_equal.
        replace (S (S n) - 1)%nat with (S n) by lia.
        replace (S n - 1)%nat with n by lia.
        rewrite <- Nat.succ_min_distr. lia.
      * cbn [content]. intros i c Hi.
        rewrite <- (Hslots (S i) c Hi). f_equal. lia.
      * cbn [content]. intros Hlt. rewrite <- Hend by lia. f_equal. lia.
Qed.

End Walker.

Lemma getIDs_unfold (position : Z) (trailingBytes : bool) (f : file) :
  0 <= position ->
  BoardID.getIDs position trailingBytes f
  = BoardID.getIDs_loop 14 (position + 20) trailingBytes []
      (mkFile (content f) (position + 20)).
Proof.
  intros H. unfold BoardID.getIDs. rewrite bind_seek by lia. reflexivity.
Qed.

(** C5: five valid codes in the slots after the anchor, followed by the
    all-0xFF code, come back as exactly those five identifiers in file
    order; fourteen valid codes come back all fourteen, and the walk stops
    there, just past the fourteenth slot. *)
Theorem getIDs_returns_table (data : list byte) (cur position : Z)
        (trailingBytes : bool) (codes : list (list byte)) :
  0 <= position ->
  Forall valid_code codes ->
  (forall i code, nth_error codes i = Some code ->
     bytes_at data (slot position trailingBytes i) 8 = code) ->
  (length codes = 5%nat ->
   bytes_at data (slot position trailingBytes 5) 8 = BoardID.unused ->
   BoardID.getIDs position trailingBytes (mkFile data cur)
   = Ok (map hardwareIdentifier codes,
         mkFile data (slot position trailingBytes 5 + 8))) /\
  (length codes = 14%nat ->
   BoardID.getIDs position trailingBytes (mkFile data cur)
   = Ok (map hardwareIdentifier codes,
         mkFile data (slot position trailingBytes 13 + 8))).
Proof.
  intros Hpos Hvalid Hslots.
  assert (Hslots' : forall i code, nth_error codes i = Some code ->
            bytes_at data (position + 20 + 8
                           + stride trailingBytes * Z.of_nat i) 8 = code).
  { intros i code Hi. rewrite <- (Hslots i code Hi).
    unfold slot. f_equal. lia. }
  split.
  - intros Hlen Hend. rewrite getIDs_unfold by exact Hpos.
    rewrite (getIDs_loop_table trailingBytes codes); cbn [content];
      try assumption; try lia.
    + rewrite Hlen. cbn [app Nat.min Nat.sub]. unfold slot.
      do 3 f_equal. lia.
    + intros _. rewrite Hlen, <- Hend. unfold slot. f_equal. lia.
  - intros Hlen. rewrite getIDs_unfold by exact Hpos.
    rewrite (getIDs_loop_table trailingBytes codes); cbn [content];
      try assumption; try lia.
    rewrite Hlen. cbn [app Nat.min Nat.sub]. unfold slot.
    do 3 f_equal. lia.
Qed.

Lemma getIDs_returns_table_witness :
  let codes :=
    [[Byte.xf2; Byte.x21; Byte.xdc; Byte.xc8; Byte.x00; Byte.x00; Byte.x00;
      Byte.x00];
     [Byte.x7b; Byte.xa5; Byte.xb2; Byte.xd9; Byte.xe4; Byte.x2d; Byte.xdd;
      Byte.x94];
     [Byte.x00; Byte.x01; Byte.x02; Byte.x03; Byte.x04; Byte.x05; Byte.x06;
      Byte.x07];
     [Byte.xff; Byte.xff; Byte.xff; Byte.xff; Byte.xff; Byte.xff; Byte.xff;
      Byte.xfe];
     [Byte.xbe; Byte.x08; Byte.x8a; Byte.xf8; Byte.xc5; Byte.xeb; Byte.x4f;
      Byte.xa2]] in
  let data := repeat Byte.x00 28 ++ concat codes ++ BoardID.unused in
  BoardID.getIDs 0 false (mkFile data 0)
  = Ok (map u ["Mac-F221DCC800000000"; "Mac-7BA5B2D9E42DDD94";
               "Mac-0001020304050607"; "Mac-FFFFFFFFFFFFFFFE";
               "Mac-BE088AF8C5EB4FA2"]%string,
        mkFile data 76).
Proof.
  intros codes data.
  refine (proj1 (getIDs_returns_table data 0 0 false codes _ _ _) _ _).
  - lia.
  - repeat constructor; discriminate.
  - intros i code H.
    do 5 (destruct i as [|i]; [injection H as <-; reflexivity|]).
    destruct i; discriminate.
  - reflexivity.
  - reflexivity.
Defined.

(** C8 (as the code has it): for every file and anchor position the walk
    returns the identifiers of the slots that come before the first slot
    read as the all-0xFF code, fourteen at most, in order.  Each of them is
    [Mac-] followed by upper-case hexadecimal characters, two for each byte
    read at its slot; it is not the rendering of the all-0xFF code, and it
    has exactly 16 characters if and only if its slot lies inside the
    file. *)
Theorem getIDs_identifiers (data : list byte) (cur position : Z)
        (trailingBytes : bool) :
  0 <= position < 2 ^ 62 ->
  exists (n : nat) (f' : file),
    (n <= 14)%nat /\
    BoardID.getIDs position trailingBytes (mkFile data cur)
    = Ok (map (fun i =>
                 hardwareIdentifier
                   (bytes_at data (slot position trailingBytes i) 8))
              (seq 0 n),
          f') /\
    ((n < 14)%nat ->
     bytes_at data (slot position trailingBytes n) 8 = BoardID.unused) /\
    forall i, (i < n)%nat ->
      let code := bytes_at data (slot position trailingBytes i) 8 in
      let id := hardwareIdentifier code in
      code <> BoardID.unused /\
      id <> hardwareIdentifier BoardID.unused /\
      id = u "Mac-" ++ upper_hex code /\
      forallb is_upper_hex (upper_hex code) = true /\
      length (upper_hex code) = (2 * length code)%nat /\
      (length code <= 8)%nat /\
      (length (upper_hex code) = 16%nat <->
       slot position trailingBytes i + 8 <= Z.of_nat (length data)).
Proof.
  intros Hpos. rewrite getIDs_unfold by lia. cbn [content].
  destruct (getIDs_loop_exact trailingBytes 14 (position + 20) []
              (mkFile data (position + 20)))
    as (n & f' & Hn & Hrun & Hvalid & Hend); [lia|].
  cbn [content app] in Hrun, Hvalid, Hend.
  assert (Hslot : forall i,
            bytes_at data
              (position + 20 + 8 + stride trailingBytes * Z.of_nat i) 8
            = bytes_at data (slot position trailingBytes i) 8)
    by (intros i; unfold slot; f_equal; lia).
  exists n, f'. split; [exact Hn|]. split; [|split].
  - rewrite Hrun.
    rewrite (map_ext _ _ (fun i => f_equal hardwareIdentifier (Hslot i))).
    reflexivity.
  - intros Hlt. rewrite <- Hslot. apply Hend, Hlt.
  - intros i Hi.
    set (code := bytes_at data (slot position trailingBytes i) 8).
    assert (Hne : code <> BoardID.unused).
    { unfold code. rewrite <- Hslot. apply Hvalid, Hi. }
    assert (Hslot0 : 0 <= slot position trailingBytes i)
      by (unfold slot, stride; destruct trailingBytes; lia).
    split; [exact Hne|]. split.
    { intros C. apply hardwareIdentifier_injective in C. contradiction. }
    split; [reflexivity|]. split; [apply upper_hex_digits|].
    split; [apply upper_hex_length|].
    split; [apply bytes_at_length|].
    rewrite upper_hex_length. unfold code, bytes_at.
    rewrite length_firstn, length_skipn. lia.
Qed.

Lemma getIDs_identifiers_witness :
  let data := repeat Byte.x00 28
              ++ [Byte.xf2; Byte.x21; Byte.xdc; Byte.xc8; Byte.x00; Byte.x00;
                  Byte.x00; Byte.x00] ++ BoardID.unused in
  exists (n : nat) (f' : file),
    (n <= 14)%nat /\
    BoardID.getIDs 0 false (mkFile data 0)
    = Ok (map (fun i => hardwareIdentifier (bytes_at data (slot 0 false i) 8))
              (seq 0 n),
          f').
Proof.
  intros data.
  destruct (getIDs_identifiers data 0 0 false)
    as (n & f' & Hn & Hrun & _); [lia|].
  exists n, f'. split; [exact Hn | exact Hrun].
Defined.

(** C8, as the claim states it, fails on a file that ends inside the table:
    the second slot holds three bytes only, and the slots after it none. *)
Lemma getIDs_short_identifier :
  let data := repeat Byte.x00 28
              ++ [Byte.xf2; Byte.x21; Byte.xdc; Byte.xc8; Byte.x00; Byte.x00;
                  Byte.x00; Byte.x00]
              ++ [Byte.x12; Byte.x34; Byte.x56] in
  let ids := map u ["Mac-F221DCC800000000"; "Mac-123456"]%string
             ++ repeat (u "Mac-") 12 in
  BoardID.getIDs 0 false (mkFile data 0) = Ok (ids, mkFile data 132) /\
  ~ Forall (fun id => exists hex,
              id = u "Mac-" ++ hex /\ length hex = 16%nat) ids.
Proof.
  intros data ids. split; [vm_compute; reflexivity|].
  intros C. apply Forall_inv_tail, Forall_inv in C.
  destruct C as (hex & E & L).
  apply (f_equal (@length codepoint)) in E. rewrite length_app, L in E.
  discriminate E.
Qed.

(** ** EFI.getVersion *)

Lemma scan_backward_finds (data : list byte) (k : nat) :
  forall (fuel : nat) (o : Z),
    (k < fuel)%nat ->
    0 <= o - 4 * Z.of_nat k ->
    (forall j, (j < k)%nat ->
       bytes_at data (o - 4 * Z.of_nat j) 8 <> EFI.marker) ->
    bytes_at data (o - 4 * Z.of_nat k) 8 = EFI.marker ->
    EFI.scan_backward fuel o (mkFile data o)
    = Ok (o - 4 * Z.of_nat k, mkFile data (o - 4 * Z.of_nat k + 8)).
Proof.
  induction k as [|k IH]; intros fuel o Hfuel Hpos Hnone Hhere;
    (destruct fuel as [|fuel]; [lia|]);
    cbn [EFI.scan_backward]; rewrite bind_read; cbn [content cursor].
  - replace (o - 4 * Z.of_nat 0) with o in * by lia.
    rewrite Hhere. change (bytes_eqb EFI.marker EFI.marker) with true.
    reflexivity.
  - pose proof (Hnone 0%nat ltac:(lia)) as H0.
    replace (o - 4 * Z.of_nat 0) with o in H0 by lia.
    rewrite (bytes_eqb_neq _ _ H0), bind_seek by lia. cbn [content].
    rewrite IH.
    + apply f_equal, f_equal2; [lia | apply f_equal; lia].
    + lia.
    + lia.
    + intros j Hj. replace (o - 4 - 4 * Z.of_nat j)
        with (o - 4 * Z.of_nat (S j)) by lia. apply Hnone. lia.
    + rewrite <- Hhere. f_equal. lia.
Qed.

Lemma scan_forward_finds (data : list byte) (k : nat) :
  forall (fuel : nat) (o : Z),
    (k < fuel)%nat ->
    0 <= o ->
    (forall j, (j < k)%nat ->
       bytes_at data (o + 4 * Z.of_nat j) 8 <> EFI.marker) ->
    bytes_at data (o + 4 * Z.of_nat k) 8 = EFI.marker ->
    EFI.scan_forward fuel o (mkFile data o)
    = Ok (o + 4 * Z.of_nat k, mkFile data (o + 4 * Z.of_nat k + 8)).
Proof.
  induction k as [|k IH]; intros fuel o Hfuel Hpos Hnone Hhere;
    (destruct fuel as [|fuel]; [lia|]);
    cbn [EFI.scan_forward]; rewrite bind_read; cbn [content cursor].
  - replace (o + 4 * Z.of_nat 0) with o in * by lia.
    rewrite Hhere. change (bytes_eqb EFI.marker EFI.marker) with true.
    reflexivity.
  - pose proof (Hnone 0%nat ltac:(lia)) as H0.
    replace (o + 4 * Z.of_nat 0) with o in H0 by lia.
    rewrite (bytes_eqb_neq _ _ H0), bind_seek by lia. cbn [content].
    rewrite IH.
    + apply f_equal, f_equal2; [lia | apply f_equal; lia].
    + lia.
    + lia.
    + intros j Hj. replace (o + 4 + 4 * Z.of_nat j)
        with (o + 4 * Z.of_nat (S j)) by lia. apply Hnone. lia.
    + rewrite <- Hhere. f_equal. lia.
Qed.

Lemma locate_first_marker (data : list byte) (cur o : Z) (k fuel : nat) :
  (k < fuel)%nat ->
  first_marker data o k ->
  EFI.locate fuel o (mkFile data cur)
  = Ok (scan_target o k, mkFile data (scan_target o k + 8)).
Proof.
  intros Hfuel (Ho & (Hp & Hhere) & Hnone).
  unfold EFI.locate. rewrite bind_seek by exact Ho. cbn [content].
  unfold scan_target in *. destruct (o >? 4096) eqn:E.
  - apply scan_backward_finds; try assumption.
    intros j Hj C. apply (Hnone j Hj). split; [lia | exact C].
  - apply scan_forward_finds; try assumption.
    intros j Hj C. apply (Hnone j Hj). split; [lia | exact C].
Qed.

Lemma getVersion_first_marker (data : list byte) (cur o : Z) (k fuel : nat) :
  (k < fuel)%nat ->
  first_marker data o k ->
  let record := bytes_at data (scan_target o k + 8) 65 in
  EFI.getVersion fuel o (mkFile data cur)
  = result_bind (decode_utf8 record)
      (fun biosID =>
         Ok (biosID,
             mkFile data (scan_target o k + 8 + Z.of_nat (length record)))).
Proof.
  intros Hfuel Hfirst record. unfold EFI.getVersion.
  unfold bind at 1.
  rewrite (locate_first_marker data cur o k fuel Hfuel Hfirst).
  rewrite bind_read. cbn [content cursor]. fold record.
  unfold lift. destruct (decode_utf8 record); reflexivity.
Qed.

(** C4: from a starting offset above 4096 the scan goes backward by 4 bytes
    at a time and stops on a marker at [o - 4k]; from an offset up to 4096 it
    goes forward and stops on a marker at [o + 4k]; in both cases when no
    offset tried before holds the marker.  [getVersion] then decodes the 65
    bytes that follow this marker. *)
Theorem getVersion_scan_direction (data : list byte) (cur o : Z)
        (k fuel : nat) :
  (k < fuel)%nat ->
  (4096 < o ->
   marker_at data (o - 4 * Z.of_nat k) ->
   (forall j, (j < k)%nat -> ~ marker_at data (o - 4 * Z.of_nat j)) ->
   let p := o - 4 * Z.of_nat k in
   EFI.locate fuel o (mkFile data cur) = Ok (p, mkFile data (p + 8)) /\
   EFI.getVersion fuel o (mkFile data cur)
   = result_bind (decode_utf8 (bytes_at data (p + 8) 65))
       (fun biosID =>
          Ok (biosID,
              mkFile data
                (p + 8 + Z.of_nat (length (bytes_at data (p + 8) 65)))))) /\
  (0 <= o <= 4096 ->
   marker_at data (o + 4 * Z.of_nat k) ->
   (forall j, (j < k)%nat -> ~ marker_at data (o + 4 * Z.of_nat j)) ->
   let p := o + 4 * Z.of_nat k in
   EFI.locate fuel o (mkFile data cur) = Ok (p, mkFile data (p + 8)) /\
   EFI.getVersion fuel o (mkFile data cur)
   = result_bind (decode_utf8 (bytes_at data (p + 8) 65))
       (fun biosID =>
          Ok (biosID,
              mkFile data
                (p + 8 + Z.of_nat (length (bytes_at data (p + 8) 65)))))).
Proof.
  intros Hfuel. split.
  - intros Ho Hhere Hnone p.
    assert (Hfirst : first_marker data o k).
    { unfold first_marker, scan_target.
      replace (o >? 4096) with true by (symmetry; apply Z.gtb_lt; lia).
      repeat split; try lia; try apply Hhere. exact Hnone. }
    assert (Ep : scan_target o k = p).
    { unfold scan_target, p.
      replace (o >? 4096) with true by (symmetry; apply Z.gtb_lt; lia).
      reflexivity. }
    rewrite <- Ep. split.
    + apply locate_first_marker; assumption.
    + apply getVersion_first_marker; assumption.
  - intros Ho Hhere Hnone p.
    assert (Hgt : (o >? 4096) = false).
    { destruct (o >? 4096) eqn:E; [|reflexivity]. apply Z.gtb_lt in E. lia. }
    assert (Hfirst : first_marker data o k).
    { unfold first_marker, scan_target. rewrite Hgt.
      repeat split; try lia; try apply Hhere. exact Hnone. }
    assert (Ep : scan_target o k = p).
    { unfold scan_target, p. rewrite Hgt. reflexivity. }
    rewrite <- Ep. split.
    + apply locate_first_marker; assumption.
    + apply getVersion_first_marker; assumption.
Qed.

Lemma getVersion_scan_direction_witness :
  let backward := repeat Byte.x00 4092 ++ EFI.marker in
  EFI.locate 3 4100 (mkFile backward 0) = Ok (4092, mkFile backward 4100) /\
  EFI.locate 2 172 (mkFile sample_image 0) = Ok (176, mkFile sample_image 184).
Proof.
  intros backward. split.
  - refine (proj1 (proj1 (getVersion_scan_direction backward 0 4100 2 3 _)
                         _ _ _)).
    + lia.
    + lia.
    + split; [lia | vm_compute; reflexivity].
    + intros j Hj [_ C].
      destruct j as [|[|j]]; [vm_compute in C; discriminate C
                             | vm_compute in C; discriminate C | lia].
  - refine (proj1 (proj2 (getVersion_scan_direction sample_image 0 172 1 2 _)
                         _ _ _)).
    + lia.
    + lia.
    + split; [lia | vm_compute; reflexivity].
    + intros j Hj [_ C].
      destruct j as [|j]; [vm_compute in C; discriminate C | lia].
Defined.

(** ** The version record *)

Lemma remove_char_cons (c x : codepoint) (s : str) :
  remove_char (c :: s) x
  = if (c =? x)%N then remove_char s x else c :: remove_char s x.
Proof. unfold remove_char. cbn [filter]. destruct (c =? x)%N; reflexivity. Qed.

Lemma split_remove_char (s : str) :
  map (fun field => remove_char field NUL) (split s DOT)
  = split (remove_char s NUL) DOT.
Proof.
  induction s as [|c s IH]; [reflexivity|].
  cbn [split]. rewrite remove_char_cons. destruct (c =? DOT)%N eqn:Edot.
  - apply N.eqb_eq in Edot. subst c. cbn [map].
    change (DOT =? NUL)%N with false. cbv iota.
    cbn [split]. rewrite N.eqb_refl, <- IH. reflexivity.
  - destruct (split s DOT) as [|field fields] eqn:Es;
      [destruct (split_nonempty s DOT Es)|].
    cbn [map] in *. rewrite remove_char_cons.
    destruct (c =? NUL)%N eqn:Enul.
    + exact IH.
    + cbn [split]. rewrite Edot, <- IH. reflexivity.
Qed.

Lemma remove_char_app (s t : str) (x : codepoint) :
  remove_char (s ++ t) x = remove_char s x ++ remove_char t x.
Proof. apply filter_app. Qed.

Lemma remove_char_repeat (x : codepoint) (n : nat) :
  remove_char (repeat x n) x = [].
Proof.
  induction n as [|n IH]; [reflexivity|].
  cbn [repeat]. rewrite remove_char_cons, N.eqb_refl. exact IH.
Qed.

Lemma remove_char_units (text : str) (padding : nat) :
  Forall (fun c => c <> NUL) text ->
  remove_char (utf16_units text ++ repeat NUL padding) NUL = text.
Proof.
  intros H. rewrite remove_char_app, remove_char_repeat, app_nil_r.
  induction H as [|c text Hc _ IH]; [reflexivity|].
  change (utf16_units (c :: text)) with (c :: NUL :: utf16_units text).
  rewrite !remove_char_cons, N.eqb_refl.
  apply N.eqb_neq in Hc. rewrite Hc, IH. reflexivity.
Qed.

Lemma split_without_sep (field : str) (sep : codepoint) :
  Forall (fun c => c <> sep) field -> split field sep = [field].
Proof.
  induction 1 as [|c field Hc _ IH]; [reflexivity|].
  cbn [split]. apply N.eqb_neq in Hc. rewrite Hc, IH. reflexivity.
Qed.

Lemma split_app_sep (field rest : str) (sep : codepoint) :
  Forall (fun c => c <> sep) field ->
  split (field ++ sep :: rest) sep = field :: split rest sep.
Proof.
  induction 1 as [|c field Hc _ IH]; cbn [app split].
  - rewrite N.eqb_refl. reflexivity.
  - apply N.eqb_neq in Hc. rewrite Hc, IH. reflexivity.
Qed.

Lemma split_join (fields : list str) (sep : codepoint) :
  fields <> [] ->
  Forall (Forall (fun c => c <> sep)) fields ->
  split (join sep fields) sep = fields.
Proof.
  intros Hne H. revert Hne.
  induction H as [|field fields Hf Hrest IH]; intros Hne;
    [destruct Hne; reflexivity|].
  destruct fields as [|field' fields].
  - apply split_without_sep, Hf.
  - change (join sep (field :: field' :: fields))
      with (field ++ sep :: join sep (field' :: fields)).
    rewrite split_app_sep by exact Hf. rewrite IH by discriminate.
    reflexivity.
Qed.

Lemma join_plain (fields : list str) :
  Forall (Forall plain_char) fields ->
  Forall (fun c => (0 < c < 128)%N) (join DOT fields).
Proof.
  induction 1 as [|field fields Hf _ IH]; [constructor|].
  assert (Hfield : Forall (fun c => (0 < c < 128)%N) field).
  { eapply Forall_impl; [|exact Hf]. intros c [Hc _]. exact Hc. }
  destruct fields as [|field' fields]; [exact Hfield|].
  change (join DOT (field :: field' :: fields))
    with (field ++ DOT :: join DOT (field' :: fields)).
  apply Forall_app. split; [exact Hfield|].
  constructor; [unfold DOT; lia | exact IH].
Qed.

Lemma utf16_units_ascii (text : str) :
  Forall (fun c => (0 < c < 128)%N) text ->
  Forall (fun c => (c < 128)%N) (utf16_units text).
Proof.
  induction 1 as [|c text Hc _ IH]; [constructor|].
  change (utf16_units (c :: text)) with (c :: NUL :: utf16_units text).
  constructor; [lia|]. constructor; [unfold NUL; lia | exact IH].
Qed.

Lemma version_record_ascii (record : list byte) (fields : list str) :
  version_record record fields ->
  Forall (fun x => (Byte.to_N x < 128)%N) record.
Proof.
  intros (_ & _ & Hplain & padding & Hbytes).
  apply Forall_map with (f := Byte.to_N) (P := fun c => (c < 128)%N).
  rewrite Hbytes. apply Forall_app. split.
  - apply utf16_units_ascii, join_plain, Hplain.
  - apply Forall_forall. intros c Hc. apply repeat_spec in Hc.
    subst c. unfold NUL. lia.
Qed.

(** C2 (as the code has it): when the scan reaches the marker and a
    well-formed 65-byte record follows it, [getVersion] returns the 65 bytes
    of the record as 65 characters, the null characters among them; its
    dot-delimited fields are five, and with the null characters taken out
    they are exactly the five original fields. *)
Theorem getVersion_record_fields (data : list byte) (cur o : Z) (k fuel : nat)
        (record : list byte) (fields : list str) :
  (k < fuel)%nat ->
  first_marker data o k ->
  bytes_at data (scan_target o k + 8) 65 = record ->
  version_record record fields ->
  exists biosID,
    EFI.getVersion fuel o (mkFile data cur)
    = Ok (biosID, mkFile data (scan_target o k + 8 + 65)) /\
    biosID = map Byte.to_N record /\
    length biosID = 65%nat /\
    length (split biosID DOT) = 5%nat /\
    map (fun field => remove_char field NUL) (split biosID DOT) = fields /\
    remove_char biosID NUL = join DOT fields.
Proof.
  intros Hfuel Hfirst Hrec Hwf.
  pose proof (version_record_ascii record fields Hwf) as Hascii.
  destruct Hwf as (Hlen & Hfive & Hplain & padding & Hbytes).
  exists (map Byte.to_N record).
  assert (Htext : remove_char (map Byte.to_N record) NUL = join DOT fields).
  { rewrite Hbytes. apply remove_char_units.
    eapply Forall_impl; [|exact (join_plain fields Hplain)].
    intros c Hc. cbv beta in Hc. unfold NUL. intros ->. lia. }
  assert (Hfields : map (fun field => remove_char field NUL)
                        (split (map Byte.to_N record) DOT) = fields).
  { rewrite split_remove_char, Htext. apply split_join.
    - intros ->. discriminate Hfive.
    - eapply Forall_impl; [|exact Hplain].
      intros field Hf. eapply Forall_impl; [|exact Hf].
      intros c [_ Hc]. exact Hc. }
  repeat split.
  - rewrite (getVersion_first_marker data cur o k fuel Hfuel Hfirst).
    cbv zeta. rewrite Hrec, decode_utf8_ascii by exact Hascii.
    cbn [result_bind]. rewrite Hlen. reflexivity.
  - rewrite length_map. exact Hlen.
  - rewrite <- (length_map (fun field => remove_char field NUL)), Hfields.
    exact Hfive.
  - exact Hfields.
  - exact Htext.
Qed.

Lemma sample_first_marker : first_marker sample_image 176 0.
Proof.
  split; [lia|]. split.
  - split; [vm_compute; discriminate | vm_compute; reflexivity].
  - intros j Hj. lia.
Qed.

Lemma sample_version_record : version_record sample_record sample_fields.
Proof.
  split; [reflexivity|]. split; [reflexivity|]. split.
  - unfold sample_fields. cbn.
    repeat constructor; unfold DOT; try lia; discriminate.
  - exists 1%nat. vm_compute. reflexivity.
Qed.

Lemma getVersion_record_fields_witness :
  exists biosID,
    EFI.getVersion 1 176 (mkFile sample_image 0)
    = Ok (biosID, mkFile sample_image 249) /\
    map (fun field => remove_char field NUL) (split biosID DOT)
    = sample_fields.
Proof.
  destruct (getVersion_record_fields sample_image 0 176 0 1
              sample_record sample_fields)
    as (biosID & Hrun & _ & _ & _ & Hfields & _).
  - lia.
  - exact sample_first_marker.
  - vm_compute. reflexivity.
  - exact sample_version_record.
  - exists biosID. split; [exact Hrun | exact Hfields].
Defined.

(** C2, as the claim states it, fails on the record of the source's own
    comment: the string returned keeps every null character, so it is not
    the dot-delimited text and none of its fields is an original field. *)
Lemma getVersion_keeps_nulls :
  exists biosID,
    EFI.getVersion 1 176 (mkFile sample_image 0)
    = Ok (biosID, mkFile sample_image 249) /\
    version_record sample_record sample_fields /\
    biosID <> join DOT sample_fields /\
    split biosID DOT <> sample_fields /\
    Forall (fun field => In NUL field) (split biosID DOT).
Proof.
  eexists. split; [vm_compute; reflexivity|].
  split; [exact sample_version_record|].
  split; [vm_compute; discriminate|].
  split; [vm_compute; discriminate|].
  vm_compute. repeat constructor; simpl; tauto.
Qed.

(** ** GUID.search *)

Lemma occurs_occursb (pattern data : list byte) :
  pattern <> [] -> occurs pattern data -> occursb pattern data = true.
Proof.
  intros Hne [c Hc]. unfold occursb. apply existsb_exists.
  destruct (Nat.le_gt_cases c (length data)) as [Hle|Hgt].
  - exists c. split.
    + apply in_seq. lia.
    + apply bytes_eqb_eq, Hc.
  - rewrite skipn_all2, firstn_nil in Hc by lia. congruence.
Qed.

Lemma hexlify_pattern_A : hexlify pattern_A = GUID.uuid_MP51.
Proof. reflexivity. Qed.

Lemma read_is_not_pattern_A (data : list byte) (p : Z) :
  ~ occurs pattern_A data ->
  bytes_eqb (hexlify (bytes_at data p 16)) GUID.uuid_MP51 = false.
Proof.
  intros Hno. apply bytes_eqb_neq. rewrite <- hexlify_pattern_A.
  intros C. apply hexlify_injective in C.
  apply Hno. exists (Z.to_nat p). exact C.
Qed.

(** Without pattern A in the file no test of the loop succeeds: once the
    position has reached its bound the loop goes on reading, to the end of
    the file and then nothing, for ever. *)
Lemma search_MP51_loop_diverges (data : list byte) (filesize : Z) :
  ~ occurs pattern_A data ->
  forall (fuel : nat) (position cur : Z),
    0 <= position ->
    GUID.search_MP51_loop fuel filesize position (mkFile data cur) = OutOfFuel.
Proof.
  intros Hno. induction fuel as [|fuel IH]; intros position cur Hpos;
    [reflexivity|].
  cbn [GUID.search_MP51_loop]. rewrite bind_read. cbn [content cursor].
  rewrite (read_is_not_pattern_A data cur Hno).
  destruct (position <? filesize - 8).
  - rewrite bind_seek by lia. cbn [content]. apply IH. lia.
  - apply IH. exact Hpos.
Qed.

(** C9 (as the code has it): in the MacPro5,1 branch, on a file that holds
    reference pattern A nowhere, [GUID.search] gives no answer however many
    iterations it is granted: it neither returns nor raises. *)
Theorem search_MP51_never_returns (data : list byte) (cur filesize : Z)
        (filename : str) :
  startswith filename (u "MP51") = true ->
  ~ occurs pattern_A data ->
  forall fuel : nat,
    GUID.search fuel filesize filename (mkFile data cur) = OutOfFuel.
Proof.
  intros Hname Hno fuel. unfold GUID.search, GUID.search_MP51.
  rewrite Hname. apply search_MP51_loop_diverges; [exact Hno | lia].
Qed.

Lemma MP51_image_without_pattern_A : ~ occurs pattern_A MP51_image.
Proof.
  intros H. apply occurs_occursb in H; [|discriminate].
  vm_compute in H. discriminate H.
Qed.

Lemma search_MP51_never_returns_witness :
  GUID.search 1000 176 (u "MP51.scap") (mkFile MP51_image 249) = OutOfFuel.
Proof.
  exact (search_MP51_never_returns MP51_image 249 176 (u "MP51.scap")
           eq_refl MP51_image_without_pattern_A 1000%nat).
Defined.

(** ** main: which anchor search a file name gets *)

Lemma split_head_MP51 (filename : str) :
  startswith filename (u "MP51_") = true ->
  hd [] (split filename UNDERSCORE) = u "MP51".
Proof.
  intros H. apply startswith_app in H. destruct H as [rest ->].
  change (u "MP51_" ++ rest) with (u "MP51" ++ UNDERSCORE :: rest).
  rewrite split_app_sep; [reflexivity|].
  repeat constructor; discriminate.
Qed.

Section Routes.
Context {db : UnicodeDB}.

Lemma processFile_by_route (fuel : nat) (h : host)
      (fileType filename : str) (c : console) (f : file) :
  processFile fuel h fileType filename c f
  = match anchor_route filename with
    | NoAnchorSearch => processWithoutTable fuel h c f
    | _ => processWithTable fuel h fileType filename c f
    end.
Proof.
  unfold processFile, anchor_route.
  destruct (GUID.shouldPerformCheck filename); [|reflexivity].
  destruct (startswith filename (u "MP51")); reflexivity.
Qed.

End Routes.

(** C1 (as the code has it): a file name that begins with [MP51_] is on
    the list of old-style models, so [main] runs no anchor search for it at
    all, neither the forward scan nor the fixed candidate offsets, and takes
    its data from [EFI.getData]; [GUID.search] itself, given such a name,
    takes the forward scan of the MacPro5,1 branch. *)
Theorem MP51_file_skips_anchor_search (filename : str) :
  startswith filename (u "MP51_") = true ->
  GUID.shouldPerformCheck filename = false /\
  anchor_route filename = NoAnchorSearch /\
  (forall (db : UnicodeDB) fuel h fileType c f,
     processFile fuel h fileType filename c f
     = processWithoutTable fuel h c f) /\
  (forall fuel filesize f,
     GUID.search fuel filesize filename f = GUID.search_MP51 fuel filesize f).
Proof.
  intros H.
  assert (Hcheck : GUID.shouldPerformCheck filename = false).
  { unfold GUID.shouldPerformCheck. rewrite (split_head_MP51 filename H).
    reflexivity. }
  assert (Hroute : anchor_route filename = NoAnchorSearch).
  { unfold anchor_route. rewrite Hcheck. reflexivity. }
  split; [exact Hcheck|]. split; [exact Hroute|]. split.
  - intros db fuel h fileType c f.
    rewrite processFile_by_route, Hroute. reflexivity.
  - intros fuel filesize f. unfold GUID.search.
    rewrite (startswith_shorter filename (u "MP51") (u "_") H). reflexivity.
Qed.

Lemma MP51_file_skips_anchor_search_witness :
  anchor_route (u "MP51_007F_03B_LOCKED.scap") = NoAnchorSearch.
Proof.
  exact (proj1 (proj2 (MP51_file_skips_anchor_search
                         (u "MP51_007F_03B_LOCKED.scap") eq_refl))).
Defined.

(** C1, as the claim states it, fails on the MacPro5,1 image of the
    firmware package: [main] does not send it through the forward scan; it
    prints its line from [EFI.getData], where the route through
    [GUID.search] would give nothing. *)
Lemma MP51_file_not_scanned :
  let filename := u "MP51_007F_03B_LOCKED.scap" in
  let h := foreign_host (u "Linux") in
  let c := mkConsole true false [] in
  startswith filename (u "MP51_") = true /\
  anchor_route filename <> LegacyForwardScan /\
  @processFile asciiDB 1 h GLOB_SCAP_EXTENSION filename c
    (mkFile MP51_image 0)
  = Ok (mkConsole false false
          [u "  Mac-F221DCC8         | MacPro5,1      |"
           ++ map Byte.to_N (bytes_at MP51_image 184 65)],
        mkFile MP51_image 249) /\
  forall fuel,
    processWithTable fuel h GLOB_SCAP_EXTENSION filename c
      (mkFile MP51_image 0)
    = OutOfFuel.
Proof.
  intros filename h c. split; [reflexivity|].
  split; [vm_compute; discriminate|].
  split; [vm_compute; reflexivity|].
  intros [|fuel]; [reflexivity|].
  assert (Hfirst : first_marker MP51_image 176 0).
  { split; [lia|]. split.
    - split; [vm_compute; discriminate | vm_compute; reflexivity].
    - intros j Hj. lia. }
  pose proof (getVersion_first_marker MP51_image 0 176 0 (S fuel)
                ltac:(lia) Hfirst) as Hversion.
  cbv zeta in Hversion.
  assert (Hdecode : decode_utf8 (bytes_at MP51_image (scan_target 176 0 + 8) 65)
                    = Ok (map Byte.to_N (bytes_at MP51_image 184 65)))
    by (vm_compute; reflexivity).
  rewrite Hdecode in Hversion. cbn [result_bind] in Hversion.
  unfold processWithTable.
  unfold bind at 1. cbn [st_size content].
  change (str_eqb GLOB_SCAP_EXTENSION GLOB_SCAP_EXTENSION) with true.
  cbv iota. unfold bind at 1. rewrite Hversion.
  unfold bind at 1. unfold GUID.search, GUID.search_MP51.
  change (startswith filename (u "MP51")) with true. cbv iota.
  rewrite search_MP51_loop_diverges;
    [reflexivity | exact MP51_image_without_pattern_A | lia].
Qed.

(** ** Further properties of the registry *)

Lemma not_in_existsb (s : str) (l : list str) :
  existsb (str_eqb s) l = false -> ~ In s l.
Proof.
  intros H Hin.
  assert (E : existsb (str_eqb s) l = true).
  { apply existsb_exists. exists s. split; [exact Hin | apply str_eqb_refl]. }
  congruence.
Qed.

Section RegistryMore.
Variable table : list (str * str).

Lemma getByModelID_in_listed (id model : str) :
  In (id, model) table ->
  exists id', In (id', model) table /\
              BoardID.getByModelID_in table model = id'.
Proof.
  induction table as [|x t IH]; simpl; [tauto|].
  intros Hin. destruct (str_eqb model (snd x)) eqn:E.
  - apply str_eqb_eq in E. exists (fst x). split; [|reflexivity].
    left. destruct x. simpl in *. congruence.
  - destruct Hin as [->|Hin].
    + simpl in E. rewrite str_eqb_refl in E. discriminate.
    + destruct (IH Hin) as (id' & Hin' & Hrun). exists id'. auto.
Qed.

Lemma getByBoardID_in_missing (id : str) :
  ~ In id (map fst table) ->
  Model.getByBoardID_in table id = u "Unknown".
Proof.
  induction table as [|x t IH]; simpl; [reflexivity|].
  intros Hno. destruct (str_eqb id (fst x)) eqn:E.
  - apply str_eqb_eq in E. destruct Hno. left. congruence.
  - apply IH. tauto.
Qed.

Lemma getByModelID_in_missing (model : str) :
  ~ In model (map snd table) ->
  BoardID.getByModelID_in table model = u "Unknown".
Proof.
  induction table as [|x t IH]; simpl; [reflexivity|].
  intros Hno. destruct (str_eqb model (snd x)) eqn:E.
  - apply str_eqb_eq in E. destruct Hno. left. congruence.
  - apply IH. tauto.
Qed.

Lemma getByModelID_in_first (pre post : list (str * str)) (id model : str) :
  table = pre ++ (id, model) :: post ->
  ~ In model (map snd pre) ->
  BoardID.getByModelID_in table model = id.
Proof.
  intros -> Hno. induction pre as [|x pre IH]; simpl.
  - rewrite str_eqb_refl. reflexivity.
  - destruct (str_eqb model (snd x)) eqn:E.
    + apply str_eqb_eq in E. destruct Hno. left. congruence.
    + apply IH. simpl in Hno. tauto.
Qed.

Lemma getByBoardID_in_first (pre post : list (str * str)) (id model : str) :
  table = pre ++ (id, model) :: post ->
  ~ In id (map fst pre) ->
  Model.getByBoardID_in table id = model.
Proof.
  intros -> Hno. induction pre as [|x pre IH]; simpl.
  - rewrite str_eqb_refl. reflexivity.
  - destruct (str_eqb id (fst x)) eqn:E.
    + apply str_eqb_eq in E. destruct Hno. left. congruence.
    + apply IH. simpl in Hno. tauto.
Qed.

End RegistryMore.

(** X1: every model name of the table comes back from the lookup of the
    identifier found for it, whether or not other identifiers share the
    name. *)
Theorem getByBoardID_getByModelID (id model : str) :
  In (id, model) boardIDModelIDs ->
  Model.getByBoardID (BoardID.getByModelID model) = model.
Proof.
  intros Hin. unfold BoardID.getByModelID, Model.getByBoardID.
  destruct (getByModelID_in_listed boardIDModelIDs id model Hin)
    as (id' & Hin' & ->).
  exact (getByBoardID_in_listed boardIDModelIDs id' model
           boardIDModelIDs_ids_distinct Hin').
Qed.

Lemma getByBoardID_getByModelID_witness :
  Model.getByBoardID (BoardID.getByModelID (u "iMac17,1")) = u "iMac17,1".
Proof.
  apply (getByBoardID_getByModelID (u "Mac-B809C3757DA9BB8D") (u "iMac17,1")).
  unfold boardIDModelIDs.
  apply (in_map (fun x => (u (fst x), u (snd x))) _
                ("Mac-B809C3757DA9BB8D", "iMac17,1")%string).
  simpl. repeat (try (left; reflexivity); right).
Defined.

(** X2: an identifier that the table does not list has the model
    [Unknown], and a model name that the table does not list has the
    identifier [Unknown]. *)
Theorem lookup_miss_is_Unknown (s : str) :
  (~ In s (map fst boardIDModelIDs) -> Model.getByBoardID s = u "Unknown") /\
  (~ In s (map snd boardIDModelIDs) -> BoardID.getByModelID s = u "Unknown").
Proof.
  split; intros H.
  - exact (getByBoardID_in_missing boardIDModelIDs s H).
  - exact (getByModelID_in_missing boardIDModelIDs s H).
Qed.

Lemma lookup_miss_is_Unknown_witness :
  Model.getByBoardID (u "Mac-XXXXXXXXXXXXXXXX") = u "Unknown" /\
  BoardID.getByModelID (u "iMac19,1") = u "Unknown".
Proof.
  split.
  - apply (proj1 (lookup_miss_is_Unknown (u "Mac-XXXXXXXXXXXXXXXX"))).
    apply not_in_existsb. vm_compute. reflexivity.
  - apply (proj2 (lookup_miss_is_Unknown (u "iMac19,1"))).
    apply not_in_existsb. vm_compute. reflexivity.
Defined.

(** X3: where several identifiers carry one model name, the lookup by
    model gives the one listed first; the same holds for the lookup by
    identifier. *)
Theorem lookup_first_match (pre post : list (str * str)) (id model : str) :
  boardIDModelIDs = pre ++ (id, model) :: post ->
  (~ In model (map snd pre) -> BoardID.getByModelID model = id) /\
  (~ In id (map fst pre) -> Model.getByBoardID id = model).
Proof.
  intros E. split; intros H.
  - exact (getByModelID_in_first boardIDModelIDs pre post id model E H).
  - exact (getByBoardID_in_first boardIDModelIDs pre post id model E H).
Qed.

Lemma lookup_first_match_witness :
  BoardID.getByModelID (u "iMac17,1") = u "Mac-DB15BD556843C820".
Proof.
  refine (proj1 (lookup_first_match (firstn 57 boardIDModelIDs)
                   (skipn 58 boardIDModelIDs)
                   (u "Mac-DB15BD556843C820") (u "iMac17,1") _) _).
  - vm_compute. reflexivity.
  - apply not_in_existsb. vm_compute. reflexivity.
Defined.

(** ** Further properties of Model.getID *)

Lemma startswith_longer_false (s p q : str) :
  startswith s p = false -> startswith s (p ++ q) = false.
Proof.
  intros H. destruct (startswith s (p ++ q)) eqn:E; [|reflexivity].
  apply startswith_shorter in E. congruence.
Qed.

Lemma first_char_differs (x : codepoint) (s t : str) (c : codepoint) :
  c <> x -> c :: s <> x :: t.
Proof. intros H [= E _]. contradiction. Qed.

Lemma getID_no_prefix (db : UnicodeDB) (id : str) :
  startswith id (u "IM") = false -> startswith id (u "MB") = false ->
  startswith id (u "MM") = false -> startswith id (u "MP") = false ->
  Model.getID id = u "Unknown".
Proof.
  intros HIM HMB HMM HMP.
  pose proof (startswith_longer_false id (u "IM") (u "P") HIM) as HIMP.
  pose proof (startswith_longer_false id (u "MB") (u "P") HMB) as HMBP.
  pose proof (startswith_longer_false id (u "MB") (u "A") HMB) as HMBA.
  change (u "IM" ++ u "P") with (u "IMP") in HIMP.
  change (u "MB" ++ u "P") with (u "MBP") in HMBP.
  change (u "MB" ++ u "A") with (u "MBA") in HMBA.
  unfold Model.getID.
  rewrite HIM, HIMP, HMBP, HMBA, HMB, HMM, HMP. reflexivity.
Qed.

(** X4: the answer is [Unknown] exactly for the tokens that start with
    none of [IM], [MB], [MM] and [MP]. *)
Theorem getID_Unknown_iff (db : UnicodeDB) (id : str) :
  Model.getID id = u "Unknown" <->
  startswith id (u "IM") = false /\ startswith id (u "MB") = false /\
  startswith id (u "MM") = false /\ startswith id (u "MP") = false.
Proof.
  unfold Model.getID.
  pose proof (startswith_longer_false id (u "IM") (u "P")) as HIMP.
  pose proof (startswith_longer_false id (u "MB") (u "P")) as HMBP.
  pose proof (startswith_longer_false id (u "MB") (u "A")) as HMBA.
  pose proof (startswith_shorter id (u "MB") (u "P")) as HMBP'.
  pose proof (startswith_shorter id (u "MB") (u "A")) as HMBA'.
  change (u "IM" ++ u "P") with (u "IMP") in *.
  change (u "MB" ++ u "P") with (u "MBP") in *.
  change (u "MB" ++ u "A") with (u "MBA") in *.
  destruct (startswith id (u "IM")) eqn:EIM.
  { split; [intros C; discriminate C | intros (C & _); discriminate C]. }
  rewrite (HIMP eq_refl).
  destruct (startswith id (u "MBP")) eqn:EMBP.
  { rewrite (HMBP' eq_refl).
    split; [intros C; discriminate C | intros (_ & C & _); discriminate C]. }
  destruct (startswith id (u "MBA")) eqn:EMBA.
  { rewrite (HMBA' eq_refl).
    split; [intros C; discriminate C | intros (_ & C & _); discriminate C]. }
  destruct (startswith id (u "MB")) eqn:EMB.
  { split; [intros C; discriminate C | intros (_ & C & _); discriminate C]. }
  destruct (startswith id (u "MM")) eqn:EMM.
  { split; [intros C; discriminate C|].
    intros (_ & _ & C & _); discriminate C. }
  destruct (startswith id (u "MP")) eqn:EMP.
  { split; [intros C; discriminate C|].
    intros (_ & _ & _ & C); discriminate C. }
  split; [intros _; repeat split | reflexivity].
Qed.

Section GetIDTokens.
Context {db : UnicodeDB}.

Lemma filter_all (major : str) :
  forallb isdigit major = true -> filter isdigit major = major.
Proof.
  induction major as [|c major IH]; simpl; [reflexivity|].
  intros H. apply andb_true_iff in H. destruct H as [Hc H].
  rewrite Hc, IH by exact H. reflexivity.
Qed.

Lemma filter_none (letters : str) :
  (forall c, In c letters -> isdigit c = false) ->
  filter isdigit letters = [].
Proof.
  induction letters as [|c letters IH]; simpl; [reflexivity|].
  intros H. rewrite (H c) by tauto. apply IH. intros d Hd. apply H. tauto.
Qed.

Lemma digits_head (major : str) (minor : codepoint) :
  forallb isdigit major = true -> isdigit minor = true ->
  exists c rest, major ++ [minor] = c :: rest /\ isdigit c = true.
Proof.
  intros Hmajor Hminor. destruct major as [|c major]; simpl in *.
  - exists minor, []. auto.
  - apply andb_true_iff in Hmajor. exists c, (major ++ [minor]). tauto.
Qed.

Lemma modelName_digits (family major : str) (minor : codepoint) :
  modelName family (major ++ [minor]) = family ++ major ++ u "," ++ [minor].
Proof.
  unfold modelName. rewrite removelast_last, length_app. simpl length.
  replace (length major + 1 - 1)%nat with (length major + 0)%nat by lia.
  rewrite skipn_app, skipn_all2 by lia.
  replace (length major + 0 - length major)%nat with 0%nat by lia.
  reflexivity.
Qed.

End GetIDTokens.

(** X5: a token made of a family prefix, the digits of the major number
    and one digit for the minor number gives the name
    [<family><major>,<minor>]; a token with a single digit has an empty
    major part. *)
Theorem getID_of_token (db : UnicodeDB) (prefix family major : str)
        (minor : codepoint) :
  In (prefix, family) reachable_families ->
  (forall c, In c (u "ABIMP") -> isdigit c = false) ->
  forallb isdigit major = true ->
  isdigit minor = true ->
  Model.getID (prefix ++ major ++ [minor])
  = family ++ major ++ u "," ++ [minor].
Proof.
  intros Hin Hletters Hmajor Hminor.
  destruct (digits_head major minor Hmajor Hminor) as (c & rest & Erest & Hc).
  assert (HcP : (c =? 80)%N = false).
  { apply N.eqb_neq. intros ->.
    rewrite (Hletters 80%N) in Hc by (vm_compute; tauto). discriminate. }
  assert (HcA : (c =? 65)%N = false).
  { apply N.eqb_neq. intros ->.
    rewrite (Hletters 65%N) in Hc by (vm_compute; tauto). discriminate. }
  assert (Hnumber : forall p,
            (forall x, In x p -> In x (u "ABIMP")) ->
            filter isdigit (p ++ major ++ [minor]) = major ++ [minor]).
  { intros p Hp. rewrite !filter_app, filter_none, filter_all by auto.
    simpl. rewrite Hminor. reflexivity. }
  assert (Hname : forall fam,
            fam ++ slice_to (major ++ [minor])
                            (Z.of_nat (length (major ++ [minor])) - 1)
                ++ u "," ++ slice_from (major ++ [minor]) (-1)
            = fam ++ major ++ u "," ++ [minor]).
  { intros fam. rewrite slice_to_all_but_last, slice_from_last.
    apply modelName_digits. }
  unfold Model.getID. cbv zeta.
  simpl in Hin.
  destruct Hin as [E|[E|[E|[E|[E|[E|[]]]]]]]; injection E as <- <-;
    rewrite Hnumber by (vm_compute; tauto); rewrite Erest.
  4: { change (startswith (u "MB" ++ c :: rest) (u "IM")) with false.
       change (startswith (u "MB" ++ c :: rest) (u "IMP")) with false.
       change (startswith (u "MB" ++ c :: rest) (u "MBP"))
         with ((c =? 80)%N && true).
       change (startswith (u "MB" ++ c :: rest) (u "MBA"))
         with ((c =? 65)%N && true).
       rewrite HcP, HcA. cbn [andb].
       change (startswith (u "MB" ++ c :: rest) (u "MB")) with true.
       cbv iota. rewrite <- Erest. apply Hname. }
  all: repeat match goal with
         | |- context [startswith ?s ?p] =>
             let v := eval lazy in (startswith s p) in
             change (startswith s p) with v
         end;
       cbv iota; rewrite <- Erest; apply Hname.
Qed.

Lemma getID_of_token_witness :
  @Model.getID asciiDB (u "MBP111") = u "MacBookPro11,1".
Proof.
  refine (getID_of_token asciiDB (u "MBP") (u "MacBookPro") (u "11") 49%N
            _ _ _ _).
  - vm_compute. tauto.
  - intros c Hc. vm_compute in Hc.
    destruct Hc as [<-|[<-|[<-|[<-|[<-|[]]]]]]; reflexivity.
  - reflexivity.
  - reflexivity.
Defined.

(** X6: for a token that starts with none of the family prefixes the
    model is [Unknown], and the identifier looked up for it is not
    [Unknown] but the first identifier the table lists under that name. *)
Theorem unknown_token_gets_listed_id (db : UnicodeDB) (id : str) :
  startswith id (u "IM") = false -> startswith id (u "MB") = false ->
  startswith id (u "MM") = false -> startswith id (u "MP") = false ->
  Model.getID id = u "Unknown" /\
  BoardID.getByModelID (Model.getID id) = u "Mac-CF21D135A7D34AA6".
Proof.
  intros H1 H2 H3 H4.
  assert (E : Model.getID id = u "Unknown")
    by (apply getID_no_prefix; assumption).
  split; [exact E|]. rewrite E. vm_compute. reflexivity.
Qed.

Lemma unknown_token_gets_listed_id_witness :
  @Model.getID asciiDB (u "ZZ99") = u "Unknown" /\
  BoardID.getByModelID (@Model.getID asciiDB (u "ZZ99"))
  = u "Mac-CF21D135A7D34AA6".
Proof.
  exact (unknown_token_gets_listed_id asciiDB (u "ZZ99")
           eq_refl eq_refl eq_refl eq_refl).
Defined.

(** ** Further properties of EFI.shouldWarnAboutUpdate *)

Lemma not_Darwin (system : str) :
  system <> u "Darwin" -> str_eqb system (u "Darwin") = false.
Proof.
  intros H. destruct (str_eqb system (u "Darwin")) eqn:E; [|reflexivity].
  apply str_eqb_eq in E. contradiction.
Qed.

(** Off macOS the advisor answers false for any two strings and raises
    nothing. *)
Lemma shouldWarnAboutUpdate_off_macOS (system rawVersion biosID : str) :
  system <> u "Darwin" ->
  EFI.shouldWarnAboutUpdate system rawVersion biosID = Ok false.
Proof.
  intros H. unfold EFI.shouldWarnAboutUpdate.
  rewrite (not_Darwin system H). reflexivity.
Qed.

Lemma index_out_of_range {A} (l : list A) (i : nat) :
  (length l <= i)%nat -> index l i = Raise IndexError.
Proof.
  intros H. unfold index.
  destruct (nth_error l i) eqn:E; [|reflexivity].
  assert (nth_error l i <> None) by congruence.
  apply nth_error_Some in H0. lia.
Qed.

(** X7: on macOS a version string with fewer than five dot-delimited
    fields, on either side, makes the advisor raise IndexError. *)
Theorem shouldWarnAboutUpdate_IndexError (rawVersion biosID : str) :
  (length (split rawVersion DOT) < 5)%nat \/
  (length (split biosID DOT) < 5)%nat ->
  EFI.shouldWarnAboutUpdate (u "Darwin") rawVersion biosID = Raise IndexError.
Proof.
  intros H. unfold EFI.shouldWarnAboutUpdate. rewrite str_eqb_refl.
  destruct (Nat.lt_ge_cases (length (split rawVersion DOT)) 5) as [Hraw|Hraw].
  - rewrite index_out_of_range by lia. reflexivity.
  - destruct H as [H|H]; [lia|].
    destruct (index_in_range (split rawVersion DOT) 4) as (x & _ & ->); [lia|].
    cbn [result_bind]. rewrite index_out_of_range by lia. reflexivity.
Qed.

Lemma shouldWarnAboutUpdate_IndexError_witness :
  EFI.shouldWarnAboutUpdate (u "Darwin")
    (u "MP51.88Z.007F.B03.1706010000") (u "") = Raise IndexError.
Proof.
  apply shouldWarnAboutUpdate_IndexError. right. vm_compute. lia.
Defined.

(** ** Further properties of GUID.shouldPerformCheck *)

Lemma split_hd_decompose (s : str) (sep : codepoint) :
  let id := hd [] (split s sep) in
  Forall (fun c => c <> sep) id /\
  (s = id \/ exists rest, s = id ++ sep :: rest).
Proof.
  induction s as [|c s IH]; cbn [split].
  - split; [constructor | left; reflexivity].
  - destruct (c =? sep)%N eqn:E.
    + apply N.eqb_eq in E. subst c. cbn.
      split; [constructor | right; exists s; reflexivity].
    + cbv zeta in IH. destruct (split s sep) as [|field fields] eqn:Es;
        [destruct (split_nonempty s sep Es)|].
      cbn [hd] in *. destruct IH as [Hf Hs]. split.
      * constructor; [apply N.eqb_neq, E | exact Hf].
      * destruct Hs as [->|[rest ->]]; [left; reflexivity|].
        right. exists rest. reflexivity.
Qed.

Lemma oldStyleFWModels_no_underscore :
  Forall (Forall (fun c => c <> UNDERSCORE)) oldStyleFWModels.
Proof.
  apply Forall_forall. intros id Hid. apply Forall_forall. intros c Hc C.
  assert (H : forallb (forallb (fun c => negb (c =? UNDERSCORE)%N))
                      oldStyleFWModels = true) by (vm_compute; reflexivity).
  rewrite forallb_forall in H. specialize (H id Hid).
  rewrite forallb_forall in H. specialize (H c Hc).
  subst c. discriminate H.
Qed.

(** X8: the check is skipped exactly for the files whose name is an
    old-style model code, alone or followed by an underscore and anything;
    a code followed by anything else, as in [MP51.scap], is checked. *)
Theorem shouldPerformCheck_false_iff (filename : str) :
  GUID.shouldPerformCheck filename = false <->
  exists id,
    In id oldStyleFWModels /\
    (filename = id \/ exists rest, filename = id ++ UNDERSCORE :: rest).
Proof.
  unfold GUID.shouldPerformCheck. split.
  - destruct (existsb _ oldStyleFWModels) eqn:E; [|discriminate].
    intros _. apply existsb_exists in E. destruct E as (id & Hin & Heq).
    apply str_eqb_eq in Heq. exists id. split; [exact Hin|].
    rewrite <- Heq. apply split_hd_decompose.
  - intros (id & Hin & Hname).
    assert (Hid : Forall (fun c => c <> UNDERSCORE) id).
    { pose proof oldStyleFWModels_no_underscore as H.
      rewrite Forall_forall in H. apply H, Hin. }
    assert (Hhd : hd [] (split filename UNDERSCORE) = id).
    { destruct Hname as [->|[rest ->]].
      - rewrite split_without_sep by exact Hid. reflexivity.
      - rewrite split_app_sep by exact Hid. reflexivity. }
    rewrite Hhd.
    assert (E : existsb (str_eqb id) oldStyleFWModels = true).
    { apply existsb_exists. exists id.
      split; [exact Hin | apply str_eqb_refl]. }
    rewrite E. reflexivity.
Qed.

(** ** Further properties of EFI.getVersion *)

Lemma bind_seek_negative {A} (position : Z) (k : unit -> io A) (f : file) :
  position < 0 -> bind (seek position) k f = Raise OSError.
Proof.
  intros H. unfold bind, seek.
  replace (position <? 0) with true by (symmetry; apply Z.ltb_lt, H).
  reflexivity.
Qed.

Lemma scan_backward_raises (data : list byte) (n : nat) :
  forall (fuel : nat) (p : Z),
    0 <= p < 4 * Z.of_nat n ->
    (n <= fuel)%nat ->
    (forall j : nat, ~ marker_at data (p - 4 * Z.of_nat j)) ->
    EFI.scan_backward fuel p (mkFile data p) = Raise OSError.
Proof.
  induction n as [|n IH]; intros fuel p Hp Hfuel Hnone; [lia|].
  destruct fuel as [|fuel]; [lia|].
  cbn [EFI.scan_backward]. rewrite bind_read. cbn [content cursor].
  assert (H0 : bytes_at data p 8 <> EFI.marker).
  { intros C. apply (Hnone 0%nat). split; [lia|].
    replace (p - 4 * Z.of_nat 0) with p by lia. exact C. }
  cbv zeta. rewrite (bytes_eqb_neq _ _ H0).
  destruct (Z.lt_ge_cases (p - 4) 0) as [Hneg|Hpos].
  - apply bind_seek_negative, Hneg.
  - rewrite bind_seek by exact Hpos. cbn [content]. apply IH; [lia | lia |].
    intros j. replace (p - 4 - 4 * Z.of_nat j)
      with (p - 4 * Z.of_nat (S j)) by lia. apply Hnone.
Qed.

Lemma scan_forward_diverges (data : list byte) :
  forall (fuel : nat) (p : Z),
    0 <= p ->
    (forall j : nat, (j < fuel)%nat -> ~ marker_at data (p + 4 * Z.of_nat j)) ->
    EFI.scan_forward fuel p (mkFile data p) = OutOfFuel.
Proof.
  induction fuel as [|fuel IH]; intros p Hp Hnone; [reflexivity|].
  cbn [EFI.scan_forward]. rewrite bind_read. cbn [content cursor].
  assert (H0 : bytes_at data p 8 <> EFI.marker).
  { intros C. apply (Hnone 0%nat); [lia|]. split; [lia|].
    replace (p + 4 * Z.of_nat 0) with p by lia. exact C. }
  cbv zeta. rewrite (bytes_eqb_neq _ _ H0).
  rewrite bind_seek by lia. cbn [content]. apply IH; [lia|].
  intros j Hj. replace (p + 4 + 4 * Z.of_nat j)
    with (p + 4 * Z.of_nat (S j)) by lia. apply Hnone. lia.
Qed.

(** X9: from a starting offset above 4096, when no offset of the backward
    scan holds the marker, [getVersion] steps below offset 0 and raises
    OSError from the seek. *)
Theorem getVersion_backward_raises (data : list byte) (cur o : Z)
        (fuel : nat) :
  4096 < o ->
  (forall j : nat, ~ marker_at data (o - 4 * Z.of_nat j)) ->
  (Z.to_nat (o / 4) < fuel)%nat ->
  EFI.getVersion fuel o (mkFile data cur) = Raise OSError.
Proof.
  intros Ho Hnone Hfuel. unfold EFI.getVersion, EFI.locate.
  unfold bind at 1. rewrite bind_seek by lia. cbn [content].
  replace (o >? 4096) with true by (symmetry; apply Z.gtb_lt; lia).
  rewrite (scan_backward_raises data (S (Z.to_nat (o / 4)))).
  - reflexivity.
  - pose proof (Z.mod_pos_bound o 4 ltac:(lia)).
    pose proof (Z.div_mod o 4 ltac:(lia)). lia.
  - lia.
  - exact Hnone.
Qed.

Lemma bytes_at_nil (p : Z) (n : nat) : bytes_at [] p n = [].
Proof. unfold bytes_at. rewrite skipn_nil. apply firstn_nil. Qed.

Lemma no_marker_in_empty_file (p : Z) : ~ marker_at [] p.
Proof. intros [_ C]. rewrite bytes_at_nil in C. discriminate C. Qed.

Lemma getVersion_backward_raises_witness :
  EFI.getVersion 1100 4100 (mkFile [] 0) = Raise OSError.
Proof.
  apply getVersion_backward_raises.
  - lia.
  - intros j. apply no_marker_in_empty_file.
  - vm_compute. lia.
Defined.

(** X10: from a starting offset up to 4096, when no offset of the forward
    scan holds the marker, [getVersion] gives no answer: neither a value nor
    an exception within any number of iterations that keeps the offset a
    valid seek position (below 2^63). *)
Theorem getVersion_forward_never_returns (data : list byte) (cur o : Z)
        (fuel : nat) :
  0 <= o <= 4096 ->
  (forall j : nat, ~ marker_at data (o + 4 * Z.of_nat j)) ->
  o + 4 * Z.of_nat fuel < 2 ^ 63 ->
  EFI.getVersion fuel o (mkFile data cur) = OutOfFuel.
Proof.
  intros Ho Hnone _. unfold EFI.getVersion, EFI.locate.
  unfold bind at 1. rewrite bind_seek by lia. cbn [content].
  replace (o >? 4096) with false
    by (symmetry; destruct (o >? 4096) eqn:E; [apply Z.gtb_lt in E; lia|];
        reflexivity).
  rewrite scan_forward_diverges; [reflexivity | lia |].
  intros j _. apply Hnone.
Qed.

Lemma getVersion_forward_never_returns_witness :
  EFI.getVersion 1000 176 (mkFile [] 0) = OutOfFuel.
Proof.
  apply getVersion_forward_never_returns.
  - lia.
  - intros j. apply no_marker_in_empty_file.
  - vm_compute. reflexivity.
Defined.

(** X11: a starting offset below 0 makes [getVersion] raise OSError at
    once; this is what [main] meets on a file of the second kind shorter
    than 44 bytes that is not an old-style model. *)
Theorem short_fd_file_raises (fuel : nat) (h : host) (fileType filename : str)
        (c : console) (data : list byte) (cur : Z) :
  fileType <> GLOB_SCAP_EXTENSION ->
  (length data < 44)%nat ->
  EFI.getVersion fuel (Z.of_nat (length data) - 44) (mkFile data cur)
  = Raise OSError /\
  processWithTable fuel h fileType filename c (mkFile data cur)
  = Raise OSError.
Proof.
  intros Htype Hlen.
  assert (E : EFI.getVersion fuel (Z.of_nat (length data) - 44)
                (mkFile data cur) = Raise OSError).
  { unfold EFI.getVersion, EFI.locate. unfold bind at 1.
    rewrite bind_seek_negative by lia. reflexivity. }
  split; [exact E|].
  unfold processWithTable. unfold bind at 1. cbn [st_size content].
  destruct (str_eqb fileType GLOB_SCAP_EXTENSION) eqn:Et.
  - apply str_eqb_eq in Et. contradiction.
  - unfold bind at 1. rewrite E. reflexivity.
Qed.

Lemma short_fd_file_raises_witness :
  processWithTable 10 (foreign_host (u "Linux")) GLOB_FD_EXTENSION
    (u "IM171.fd") (mkConsole true false [])
    (mkFile (repeat Byte.x00 43) 0)
  = Raise OSError.
Proof.
  refine (proj2 (short_fd_file_raises 10 (foreign_host (u "Linux"))
                   GLOB_FD_EXTENSION (u "IM171.fd") (mkConsole true false [])
                   (repeat Byte.x00 43) 0 _ _)).
  - discriminate.
  - vm_compute. lia.
Defined.

(** ** Records that are not text *)

Lemma decode_utf8_xff (n : nat) :
  forall data : list byte,
    (length data < n)%nat ->
    In Byte.xff data ->
    decode_utf8 data = Raise UnicodeDecodeError.
Proof.
  induction n as [|n IH]; intros data Hlen Hin; [lia|].
  destruct data as [|b0 r1]; [destruct Hin|].
  cbn [decode_utf8]. cbv zeta.
  repeat (match goal with
          | |- context [match ?l with [] => _ | _ :: _ => _ end] =>
              is_var l; destruct l
          | |- context [if ?c then _ else _] => destruct c eqn:?
          end; try reflexivity);
    repeat match goal with
           | H : (_ && _) = true |- _ =>
               apply andb_true_iff in H; destruct H
           end;
    repeat match goal with
           | H : context [if ?c then _ else _] |- _ => destruct c eqn:?
           end;
    cbn [In] in Hin;
    repeat (destruct Hin as [->|Hin];
            [exfalso;
             match goal with
             | H : _ = true |- _ => vm_compute in H; discriminate H
             end|]);
    first [ contradiction
          | rewrite IH;
            [reflexivity | cbn [length] in Hlen |- *; lia | exact Hin] ].
Qed.

(** X12: when the 65 bytes behind the marker hold a byte 0xFF, the filler
    of erased flash, they are no UTF-8 text and [getVersion] raises
    UnicodeDecodeError. *)
Theorem getVersion_xff_raises (data : list byte) (cur o : Z) (k fuel : nat) :
  (k < fuel)%nat ->
  first_marker data o k ->
  In Byte.xff (bytes_at data (scan_target o k + 8) 65) ->
  EFI.getVersion fuel o (mkFile data cur) = Raise UnicodeDecodeError.
Proof.
  intros Hfuel Hfirst Hin.
  rewrite (getVersion_first_marker data cur o k fuel Hfuel Hfirst). cbv zeta.
  rewrite (decode_utf8_xff 66); [reflexivity | | exact Hin].
  pose proof (bytes_at_length data (scan_target o k + 8) 65). lia.
Qed.

Lemma getVersion_xff_raises_witness :
  EFI.getVersion 1 176
    (mkFile (repeat Byte.x00 176 ++ EFI.marker ++ repeat Byte.xff 65) 0)
  = Raise UnicodeDecodeError.
Proof.
  apply (getVersion_xff_raises _ 0 176 0 1).
  - lia.
  - split; [lia|]. split.
    + split; [vm_compute; discriminate | vm_compute; reflexivity].
    + intros j Hj. lia.
  - vm_compute. tauto.
Defined.

(** ** EFI.getData *)

Lemma version_record_split (record : list byte) (fields : list str) :
  version_record record fields ->
  map (fun field => remove_char field NUL) (split (map Byte.to_N record) DOT)
  = fields.
Proof.
  intros (_ & Hfive & Hplain & padding & Hbytes).
  rewrite split_remove_char, Hbytes, remove_char_units.
  - apply split_join.
    + intros ->. discriminate Hfive.
    + eapply Forall_impl; [|exact Hplain].
      intros field Hf. eapply Forall_impl; [|exact Hf].
      intros c [_ Hc]. exact Hc.
  - eapply Forall_impl; [|exact (join_plain fields Hplain)].
    intros c Hc. cbv beta in Hc. unfold NUL. intros ->. lia.
Qed.

Lemma filter_remove_char (keep : codepoint -> bool) (s : str)
      (x : codepoint) :
  keep x = false -> filter keep (remove_char s x) = filter keep s.
Proof.
  intros Hx. induction s as [|c s IH]; [reflexivity|].
  rewrite remove_char_cons. destruct (c =? x)%N eqn:E.
  - apply N.eqb_eq in E. subst c. cbn [filter]. rewrite Hx. exact IH.
  - cbn [filter]. rewrite IH. reflexivity.
Qed.

Lemma getVersion_ascii_record (data : list byte) (cur o : Z) (k fuel : nat)
      (record : list byte) :
  (k < fuel)%nat ->
  first_marker data o k ->
  bytes_at data (scan_target o k + 8) 65 = record ->
  Forall (fun x => (Byte.to_N x < 128)%N) record ->
  EFI.getVersion fuel o (mkFile data cur)
  = Ok (map Byte.to_N record,
        mkFile data (scan_target o k + 8 + Z.of_nat (length record))).
Proof.
  intros Hfuel Hfirst Hrec Hascii.
  rewrite (getVersion_first_marker data cur o k fuel Hfuel Hfirst). cbv zeta.
  rewrite Hrec, decode_utf8_ascii by exact Hascii. reflexivity.
Qed.

Lemma getData_run (db : UnicodeDB) (data : list byte) (cur o : Z)
      (k fuel : nat) (record : list byte) (fields : list str) :
  (k < fuel)%nat ->
  first_marker data o k ->
  bytes_at data (scan_target o k + 8) 65 = record ->
  version_record record fields ->
  isalnum NUL = false ->
  EFI.getData fuel o (mkFile data cur)
  = Ok ((BoardID.getByModelID (Model.getID (filter isalnum (hd [] fields))),
         Model.getID (filter isalnum (hd [] fields)),
         map Byte.to_N record),
        mkFile data (scan_target o k + 8 + 65)).
Proof.
  intros Hfuel Hfirst Hrec Hwf Hnul.
  pose proof (version_record_split record fields Hwf) as Hsplit.
  pose proof (version_record_ascii record fields Hwf) as Hascii.
  destruct Hwf as (Hlen & _).
  unfold EFI.getData. unfold bind at 1.
  rewrite (getVersion_ascii_record data cur o k fuel record)
    by assumption.
  rewrite Hlen. unfold ret.
  assert (Htoken : filter isalnum (hd [] (split (map Byte.to_N record) DOT))
                   = filter isalnum (hd [] fields)).
  { rewrite <- Hsplit.
    destruct (split (map Byte.to_N record) DOT) as [|field rest];
      [reflexivity|].
    cbn [map hd]. symmetry. apply filter_remove_char, Hnul. }
  rewrite Htoken. reflexivity.
Qed.

(** X13: on a well-formed record [getData] takes the model token from the
    letters and digits of the first field, whatever blanks and null
    characters surround them, derives the model from the token and looks the
    identifier up under that model; the version string is returned as
    [getVersion] gives it. *)
Theorem getData_of_record (db : UnicodeDB) (data : list byte) (cur o : Z)
        (k fuel : nat) (record : list byte) (fields : list str) :
  (k < fuel)%nat ->
  first_marker data o k ->
  bytes_at data (scan_target o k + 8) 65 = record ->
  version_record record fields ->
  isalnum NUL = false ->
  let token := filter isalnum (hd [] fields) in
  EFI.getData fuel o (mkFile data cur)
  = Ok ((BoardID.getByModelID (Model.getID token), Model.getID token,
         map Byte.to_N record),
        mkFile data (scan_target o k + 8 + 65)).
Proof.
  intros Hfuel Hfirst Hrec Hwf Hnul token.
  exact (getData_run db data cur o k fuel record fields
           Hfuel Hfirst Hrec Hwf Hnul).
Qed.

Lemma getData_of_record_witness :
  @EFI.getData asciiDB 1 176 (mkFile sample_image 0)
  = Ok ((u "Mac-F2268CC8", u "iMac10,1", map Byte.to_N sample_record),
        mkFile sample_image 249).
Proof.
  refine (getData_of_record asciiDB sample_image 0 176 0 1
            sample_record sample_fields _ _ _ _ _).
  - lia.
  - exact sample_first_marker.
  - vm_compute. reflexivity.
  - exact sample_version_record.
  - reflexivity.
Defined.

(** ** GUID.search, the branch of the fixed candidate offsets *)

Lemma hexlify_pattern_B : hexlify pattern_B = GUID.uuid_781F.
Proof. reflexivity. Qed.

Lemma hexlify_pattern_C : hexlify pattern_C = GUID.uuid_1138.
Proof. reflexivity. Qed.

Lemma hex_test_true (x pattern uuid : list byte) :
  hexlify pattern = uuid -> x = pattern ->
  bytes_eqb (hexlify x) uuid = true.
Proof. intros <- ->. apply bytes_eqb_eq. reflexivity. Qed.

Lemma hex_test_false (x pattern uuid : list byte) :
  hexlify pattern = uuid -> x <> pattern ->
  bytes_eqb (hexlify x) uuid = false.
Proof.
  intros <- H. apply bytes_eqb_neq. intros C.
  apply hexlify_injective in C. contradiction.
Qed.

Lemma search_not_MP51 (fuel : nat) (filesize : Z) (filename : str) (f : file) :
  startswith filename (u "MP51") = false ->
  GUID.search fuel filesize filename f = GUID.search_candidates fuel filesize f.
Proof. intros H. unfold GUID.search. rewrite H. reflexivity. Qed.

Lemma search_candidates_fallback (fuel : nat) (filesize : Z)
      (data : list byte) (cur : Z) :
  fixed_candidates_fail data ->
  GUID.search_candidates fuel filesize (mkFile data cur)
  = if filesize - 8 <? 0 then Raise OSError
    else GUID.search_backward_loop fuel (filesize - 8)
           (mkFile data (filesize - 8)).
Proof.
  intros (H1 & H2 & H3). unfold GUID.search_candidates. cbv zeta.
  rewrite bind_seek by lia. rewrite bind_read. cbn [content cursor]. cbv zeta.
  rewrite (hex_test_false _ _ _ hexlify_pattern_B H1).
  rewrite bind_seek by lia. rewrite bind_read. cbn [content cursor]. cbv zeta.
  rewrite (hex_test_false _ _ _ hexlify_pattern_C H2).
  rewrite bind_seek by lia. rewrite bind_read. cbn [content cursor]. cbv zeta.
  rewrite (hex_test_false _ _ _ hexlify_pattern_B H3).
  destruct (filesize - 8 <? 0) eqn:E.
  - apply bind_seek_negative, Z.ltb_lt, E.
  - rewrite bind_seek by (apply Z.ltb_ge, E). reflexivity.
Qed.

Lemma search_at_0x98 (fuel : nat) (filesize : Z) (filename : str)
      (data : list byte) (cur : Z) :
  startswith filename (u "MP51") = false ->
  bytes_at data 0x98 16 = pattern_B ->
  GUID.search fuel filesize filename (mkFile data cur)
  = Ok (0x98, mkFile data (0x98 + 16)).
Proof.
  intros Hname H. rewrite search_not_MP51 by exact Hname.
  unfold GUID.search_candidates. cbv zeta.
  rewrite bind_seek by lia. rewrite bind_read. cbn [content cursor]. cbv zeta.
  rewrite (hex_test_true _ _ _ hexlify_pattern_B H). rewrite H. reflexivity.
Qed.

Lemma search_at_0x1200 (fuel : nat) (filesize : Z) (filename : str)
      (data : list byte) (cur : Z) :
  startswith filename (u "MP51") = false ->
  bytes_at data 0x98 16 <> pattern_B ->
  bytes_at data 0x1200 16 = pattern_C ->
  GUID.search fuel filesize filename (mkFile data cur)
  = Ok (0x1200, mkFile data (0x1200 + 16)).
Proof.
  intros Hname H1 H2. rewrite search_not_MP51 by exact Hname.
  unfold GUID.search_candidates. cbv zeta.
  rewrite bind_seek by lia. rewrite bind_read. cbn [content cursor]. cbv zeta.
  rewrite (hex_test_false _ _ _ hexlify_pattern_B H1).
  rewrite bind_seek by lia. rewrite bind_read. cbn [content cursor]. cbv zeta.
  rewrite (hex_test_true _ _ _ hexlify_pattern_C H2).
  rewrite H2. reflexivity.
Qed.

(** X14: for a file not named after the MacPro5,1, pattern B at offset 0x98
    is returned as the anchor at once, whatever the later candidates hold
    and whatever the file size. *)
Theorem search_finds_0x98 (fuel : nat) (filesize : Z) (filename : str)
        (data : list byte) (cur : Z) :
  startswith filename (u "MP51") = false ->
  bytes_at data 0x98 16 = pattern_B ->
  GUID.search fuel filesize filename (mkFile data cur)
  = Ok (0x98, mkFile data (0x98 + 16)).
Proof. apply search_at_0x98. Qed.

Lemma search_finds_0x98_witness :
  let data := repeat Byte.x00 152 ++ pattern_B in
  GUID.search 0 168 (u "IM171_0105_B05_LOCKED.scap") (mkFile data 0)
  = Ok (152, mkFile data 168).
Proof.
  intros data.
  apply (search_finds_0x98 0 168 (u "IM171_0105_B05_LOCKED.scap") data 0).
  - reflexivity.
  - vm_compute. reflexivity.
Defined.

(** X15: the later candidates are tried in order: pattern C at 0x1200 is
    the anchor when 0x98 does not hold pattern B, and pattern B at 0x1048
    when neither of the two matches. *)
Theorem search_fixed_candidates_order (fuel : nat) (filesize : Z)
        (filename : str) (data : list byte) (cur : Z) :
  startswith filename (u "MP51") = false ->
  bytes_at data 0x98 16 <> pattern_B ->
  (bytes_at data 0x1200 16 = pattern_C ->
   GUID.search fuel filesize filename (mkFile data cur)
   = Ok (0x1200, mkFile data (0x1200 + 16))) /\
  (bytes_at data 0x1200 16 <> pattern_C ->
   bytes_at data 0x1048 16 = pattern_B ->
   GUID.search fuel filesize filename (mkFile data cur)
   = Ok (0x1048, mkFile data (0x1048 + 16))).
Proof.
  intros Hname H1. rewrite search_not_MP51 by exact Hname.
  unfold GUID.search_candidates. cbv zeta.
  rewrite bind_seek by lia. rewrite bind_read. cbn [content cursor]. cbv zeta.
  rewrite (hex_test_false _ _ _ hexlify_pattern_B H1).
  rewrite bind_seek by lia. rewrite bind_read. cbn [content cursor]. cbv zeta.
  split.
  - intros H2. rewrite (hex_test_true _ _ _ hexlify_pattern_C H2).
    rewrite H2. reflexivity.
  - intros H2 H3. rewrite (hex_test_false _ _ _ hexlify_pattern_C H2).
    rewrite bind_seek by lia. rewrite bind_read. cbn [content cursor].
    cbv zeta. rewrite (hex_test_true _ _ _ hexlify_pattern_B H3).
    rewrite H3. reflexivity.
Qed.

Lemma search_fixed_candidates_order_witness :
  let data := repeat Byte.x00 4608 ++ pattern_C in
  GUID.search 0 176 (u "MBP143.scap") (mkFile data 0)
  = Ok (4608, mkFile data 4624).
Proof.
  intros data.
  refine (proj1 (search_fixed_candidates_order 0 176 (u "MBP143.scap")
                   data 0 _ _) _).
  - reflexivity.
  - vm_compute. discriminate.
  - vm_compute. reflexivity.
Defined.

Lemma search_backward_loop_finds (data : list byte) (k : nat) :
  forall (fuel : nat) (p : Z),
    (k < fuel)%nat ->
    (forall j, (j < k)%nat ->
       8 < p - 4 * Z.of_nat j /\
       bytes_at data (p - 4 * Z.of_nat j) 16 <> pattern_B) ->
    bytes_at data (p - 4 * Z.of_nat k) 16 = pattern_B ->
    GUID.search_backward_loop fuel p (mkFile data p)
    = Ok (p - 4 * Z.of_nat k, mkFile data (p - 4 * Z.of_nat k + 16)).
Proof.
  induction k as [|k IH]; intros fuel p Hfuel Hnone Hhere;
    (destruct fuel as [|fuel]; [lia|]);
    cbn [GUID.search_backward_loop]; rewrite bind_read;
    cbn [content cursor]; cbv zeta.
  - replace (p - 4 * Z.of_nat 0) with p in * by lia.
    rewrite (hex_test_true _ _ _ hexlify_pattern_B Hhere), Hhere.
    reflexivity.
  - destruct (Hnone 0%nat ltac:(lia)) as [Hp H0].
    replace (p - 4 * Z.of_nat 0) with p in * by lia.
    rewrite (hex_test_false _ _ _ hexlify_pattern_B H0).
    replace (p >? 8) with true by (symmetry; apply Z.gtb_lt; lia).
    rewrite bind_seek by lia. cbn [content]. rewrite IH.
    + apply f_equal, f_equal2; [lia | apply f_equal; lia].
    + lia.
    + intros j Hj. replace (p - 4 - 4 * Z.of_nat j)
        with (p - 4 * Z.of_nat (S j)) by lia. apply Hnone. lia.
    + rewrite <- Hhere. f_equal. lia.
Qed.

(** X16: when the three fixed candidates fail, the scan goes backward from
    [filesize - 8] by 4 bytes at a time, as long as the offset is above 8,
    and returns the first of these offsets that holds pattern B. *)
Theorem search_backward_finds (fuel k : nat) (filesize : Z) (filename : str)
        (data : list byte) (cur : Z) :
  startswith filename (u "MP51") = false ->
  fixed_candidates_fail data ->
  (k < fuel)%nat ->
  8 <= filesize ->
  (forall j, (j < k)%nat ->
     8 < filesize - 8 - 4 * Z.of_nat j /\
     bytes_at data (filesize - 8 - 4 * Z.of_nat j) 16 <> pattern_B) ->
  bytes_at data (filesize - 8 - 4 * Z.of_nat k) 16 = pattern_B ->
  GUID.search fuel filesize filename (mkFile data cur)
  = Ok (filesize - 8 - 4 * Z.of_nat k,
        mkFile data (filesize - 8 - 4 * Z.of_nat k + 16)).
Proof.
  intros Hname Hfail Hfuel Hsize Hnone Hhere.
  rewrite search_not_MP51 by exact Hname.
  rewrite search_candidates_fallback by exact Hfail.
  replace (filesize - 8 <? 0) with false by (symmetry; apply Z.ltb_ge; lia).
  apply search_backward_loop_finds; assumption.
Qed.

Lemma search_backward_finds_witness :
  let data := repeat Byte.x00 24 ++ pattern_B ++ repeat Byte.x00 4 in
  GUID.search 2 36 (u "MBA71.fd") (mkFile data 0)
  = Ok (24, mkFile data 40).
Proof.
  intros data.
  refine (search_backward_finds 2 1 36 (u "MBA71.fd") data 0 _ _ _ _ _ _).
  - reflexivity.
  - repeat split; vm_compute; discriminate.
  - lia.
  - lia.
  - intros j Hj. destruct j as [|j]; [|lia].
    split; [lia | vm_compute; discriminate].
  - vm_compute. reflexivity.
Defined.

(** X17: when the three fixed candidates fail and the size given is below
    8, the backward scan starts at a negative offset and [GUID.search]
    raises OSError. *)
Theorem search_small_size_raises (fuel : nat) (filesize : Z) (filename : str)
        (data : list byte) (cur : Z) :
  startswith filename (u "MP51") = false ->
  fixed_candidates_fail data ->
  filesize < 8 ->
  GUID.search fuel filesize filename (mkFile data cur) = Raise OSError.
Proof.
  intros Hname Hfail Hsize. rewrite search_not_MP51 by exact Hname.
  rewrite search_candidates_fallback by exact Hfail.
  replace (filesize - 8 <? 0) with true by (symmetry; apply Z.ltb_lt; lia).
  reflexivity.
Qed.

Lemma search_small_size_raises_witness :
  GUID.search 5 7 (u "MBA71.fd") (mkFile (repeat Byte.x00 7) 0)
  = Raise OSError.
Proof.
  apply search_small_size_raises.
  - reflexivity.
  - repeat split; vm_compute; discriminate.
  - lia.
Defined.

Lemma read_is_not_pattern_B (data : list byte) (p : Z) :
  ~ occurs pattern_B data -> bytes_at data p 16 <> pattern_B.
Proof. intros Hno C. apply Hno. exists (Z.to_nat p). exact C. Qed.

Lemma search_backward_loop_diverges (data : list byte) :
  ~ occurs pattern_B data ->
  forall (fuel : nat) (position cur : Z),
    0 <= position ->
    GUID.search_backward_loop fuel position (mkFile data cur) = OutOfFuel.
Proof.
  intros Hno. induction fuel as [|fuel IH]; intros position cur Hpos;
    [reflexivity|].
  cbn [GUID.search_backward_loop]. rewrite bind_read. cbn [content cursor].
  cbv zeta.
  rewrite (hex_test_false _ _ _ hexlify_pattern_B
             (read_is_not_pattern_B data cur Hno)).
  destruct (position >? 8) eqn:E.
  - apply Z.gtb_lt in E. rewrite bind_seek by lia. cbn [content].
    apply IH. lia.
  - apply IH. exact Hpos.
Qed.

(** X18: for a file that holds pattern B nowhere and is not tried with
    pattern C at 0x1200, the backward scan gives no answer however many
    iterations it is granted: at offset 8 the loop stops stepping and reads
    on to the end of the file and beyond. *)
Theorem search_backward_never_returns (filesize : Z) (filename : str)
        (data : list byte) (cur : Z) :
  startswith filename (u "MP51") = false ->
  ~ occurs pattern_B data ->
  bytes_at data 0x1200 16 <> pattern_C ->
  8 <= filesize ->
  forall fuel : nat,
    GUID.search fuel filesize filename (mkFile data cur) = OutOfFuel.
Proof.
  intros Hname Hno HC Hsize fuel. rewrite search_not_MP51 by exact Hname.
  rewrite search_candidates_fallback.
  - replace (filesize - 8 <? 0) with false by (symmetry; apply Z.ltb_ge; lia).
    apply search_backward_loop_diverges; [exact Hno | lia].
  - repeat split; try exact HC; apply read_is_not_pattern_B, Hno.
Qed.

Lemma search_backward_never_returns_witness :
  GUID.search 1000 176 (u "IM171_0105_B05_LOCKED.scap")
    (mkFile sample_image 249) = OutOfFuel.
Proof.
  refine (search_backward_never_returns 176 (u "IM171_0105_B05_LOCKED.scap")
            sample_image 249 _ _ _ _ 1000%nat).
  - reflexivity.
  - intros H. apply occurs_occursb in H; [|discriminate].
    vm_compute in H. discriminate H.
  - vm_compute. discriminate.
  - lia.
Defined.

(** ** Further properties of BoardID.getIDs *)

Lemma Forall_firstn_valid (n : nat) (codes : list (list byte)) :
  Forall valid_code codes -> Forall valid_code (firstn n codes).
Proof.
  intros H. apply Forall_forall. intros code Hin.
  rewrite Forall_forall in H. apply H.
  rewrite <- (firstn_skipn n codes). apply in_or_app. left. exact Hin.
Qed.

Lemma getIDs_table_run (data : list byte) (cur position : Z)
      (trailingBytes : bool) (codes : list (list byte)) :
  0 <= position ->
  (length codes <= 14)%nat ->
  Forall valid_code codes ->
  (forall i code, nth_error codes i = Some code ->
     bytes_at data (slot position trailingBytes i) 8 = code) ->
  ((length codes < 14)%nat ->
   bytes_at data (slot position trailingBytes (length codes)) 8
   = BoardID.unused) ->
  BoardID.getIDs position trailingBytes (mkFile data cur)
  = Ok (map hardwareIdentifier codes,
        mkFile data
          (slot position trailingBytes (Nat.min (length codes) 13) + 8)).
Proof.
  intros Hpos Hlen Hvalid Hslots Hend. rewrite getIDs_unfold by exact Hpos.
  rewrite (getIDs_loop_table trailingBytes codes); cbn [content];
    try assumption; try lia.
  - cbn [app Nat.sub]. unfold slot.
    apply f_equal, f_equal2; [reflexivity | apply f_equal; lia].
  - intros i code Hi. rewrite <- (Hslots i code Hi). unfold slot.
    f_equal. lia.
  - intros Hlt. rewrite <- (Hend Hlt). unfold slot. f_equal. lia.
Qed.

(** X19: a table of any length is read up to its first unused slot, and up
    to fourteen codes at most: with no code before the unused slot the
    result is empty, and of a table of fourteen codes or more the first
    fourteen come back, whatever follows them. *)
Theorem getIDs_table_any_length (data : list byte) (cur position : Z)
        (trailingBytes : bool) (codes : list (list byte)) :
  0 <= position ->
  Forall valid_code codes ->
  (forall i code, nth_error codes i = Some code ->
     bytes_at data (slot position trailingBytes i) 8 = code) ->
  ((length codes <= 13)%nat ->
   bytes_at data (slot position trailingBytes (length codes)) 8
   = BoardID.unused ->
   BoardID.getIDs position trailingBytes (mkFile data cur)
   = Ok (map hardwareIdentifier codes,
         mkFile data (slot position trailingBytes (length codes) + 8))) /\
  ((14 <= length codes)%nat ->
   BoardID.getIDs position trailingBytes (mkFile data cur)
   = Ok (map hardwareIdentifier (firstn 14 codes),
         mkFile data (slot position trailingBytes 13 + 8))).
Proof.
  intros Hpos Hvalid Hslots. split.
  - intros Hlen Hend.
    rewrite (getIDs_table_run data cur position trailingBytes codes);
      try assumption; try lia.
    + rewrite Nat.min_l by lia. reflexivity.
    + intros _. exact Hend.
  - intros Hlen.
    rewrite (getIDs_table_run data cur position trailingBytes
               (firstn 14 codes)).
    + rewrite length_firstn.
      replace (Nat.min (Nat.min 14 (length codes)) 13) with 13%nat by lia.
      reflexivity.
    + exact Hpos.
    + rewrite length_firstn. lia.
    + apply Forall_firstn_valid, Hvalid.
    + intros i code Hi. rewrite nth_error_firstn in Hi.
      destruct (Nat.ltb i 14); [|discriminate]. apply Hslots, Hi.
    + rewrite length_firstn. lia.
Qed.

Lemma getIDs_table_any_length_witness :
  let data := repeat Byte.x00 28 ++ BoardID.unused
              ++ [Byte.xf2; Byte.x21; Byte.xdc; Byte.xc8; Byte.x00; Byte.x00;
                  Byte.x00; Byte.x00] in
  BoardID.getIDs 0 false (mkFile data 0) = Ok ([], mkFile data 36).
Proof.
  intros data.
  refine (proj1 (getIDs_table_any_length data 0 0 false [] _ _ _) _ _).
  - lia.
  - constructor.
  - intros i code H. destruct i; discriminate H.
  - cbn. lia.
  - reflexivity.
Defined.

Lemma getIDs_loop_length (trailingBytes : bool) (n : nat) :
  forall (position : Z) (boardIDs : list str) (f : file),
    0 <= position + 8 ->
    exists ids f',
      BoardID.getIDs_loop n position trailingBytes boardIDs f
      = Ok (boardIDs ++ ids, f') /\
      (length ids <= n)%nat /\ content f' = content f.
Proof.
  induction n as [|n IH]; intros position boardIDs f Hpos.
  - exists [], f. cbn. rewrite app_nil_r. auto.
  - rewrite getIDs_loop_step by exact Hpos. cbv zeta.
    destruct (bytes_eqb _ BoardID.unused).
    + eexists [], _. rewrite app_nil_r.
      split; [reflexivity|]. split; [cbn; lia | reflexivity].
    + assert (Hs : 0 <= position + stride trailingBytes + 8)
        by (unfold stride; destruct trailingBytes; lia).
      match goal with
      | |- context [BoardID.getIDs_loop n ?p _ ?acc ?g] =>
          destruct (IH p acc g Hs) as (ids & f' & Hrun & Hlen & Hcontent)
      end.
      eexists (_ :: ids), f'. split.
      * rewrite Hrun, <- app_assoc. reflexivity.
      * split; [cbn; lia | exact Hcontent].
Qed.

(** X20: from an anchor position of -20 or more (and below 2^62, so that
    every offset sought is one the file accepts) the walk always returns,
    with fourteen identifiers at most and the file as it was; from a
    position below -20 (and not below -2^62) the first seek is refused and
    the walk raises OSError. *)
Theorem getIDs_bounds (data : list byte) (cur position : Z)
        (trailingBytes : bool) :
  (-20 <= position < 2 ^ 62 ->
   exists ids f',
     BoardID.getIDs position trailingBytes (mkFile data cur) = Ok (ids, f') /\
     (length ids <= 14)%nat /\ content f' = data) /\
  (- 2 ^ 62 <= position < -20 ->
   BoardID.getIDs position trailingBytes (mkFile data cur) = Raise OSError).
Proof.
  unfold BoardID.getIDs. cbv zeta. split; intros Hpos.
  - rewrite bind_seek by lia. cbn [content].
    destruct (getIDs_loop_length trailingBytes 14 (position + 20) []
                (mkFile data (position + 20)) ltac:(lia))
      as (ids & f' & Hrun & Hlen & Hcontent).
    exists ids, f'. split; [exact Hrun|]. split; [exact Hlen | exact Hcontent].
  - apply bind_seek_negative. lia.
Qed.

Lemma getIDs_bounds_witness :
  BoardID.getIDs (-21) true (mkFile sample_image 0) = Raise OSError /\
  exists ids f',
    BoardID.getIDs (-20) true (mkFile sample_image 0) = Ok (ids, f') /\
    (length ids <= 14)%nat /\ content f' = sample_image.
Proof.
  split.
  - apply (proj2 (getIDs_bounds sample_image 0 (-21) true)). lia.
  - apply (proj1 (getIDs_bounds sample_image 0 (-20) true)). lia.
Defined.

(** ** main: the lines printed *)

Lemma hardwareIdentifier_not_placeholder (code : list byte) :
  hardwareIdentifier code <> u "Mac-XXXXXXXXXXXXXXXX".
Proof.
  unfold hardwareIdentifier. intros C.
  change (u "Mac-XXXXXXXXXXXXXXXX")
    with (u "Mac-" ++ u "XXXXXXXXXXXXXXXX") in C.
  apply app_inv_head in C.
  pose proof (upper_hex_digits code) as H. rewrite C in H.
  vm_compute in H. discriminate H.
Qed.

Lemma report_foreign_row (system boardID modelID biosID : str) (c : console) :
  boardID <> u "Mac-XXXXXXXXXXXXXXXX" ->
  report (foreign_host system) boardID modelID biosID c
  = Ok (mkConsole false (warnAboutEFIVersion c)
                  (stdout c ++ [plain_row boardID modelID biosID])).
Proof.
  intros H. unfold report. cbn [myBoardID foreign_host].
  destruct (str_eqb boardID (u "Mac-XXXXXXXXXXXXXXXX")) eqn:E.
  - apply str_eqb_eq in E. contradiction.
  - reflexivity.
Qed.

Lemma report_boardIDs_foreign_rows (system : str) (codes : list (list byte))
        (biosID : str) (c : console) :
  report_boardIDs (foreign_host system) (map hardwareIdentifier codes)
                  biosID c
  = Ok (mkConsole (match codes with [] => linePrinted c | _ => false end)
                  (warnAboutEFIVersion c)
                  (stdout c
                   ++ map (fun code =>
                             plain_row (hardwareIdentifier code)
                               (Model.getByBoardID (hardwareIdentifier code))
                               biosID)
                          codes)).
Proof.
  revert c. induction codes as [|code codes IH]; intros c.
  - cbn. rewrite app_nil_r. destruct c; reflexivity.
  - cbn [map report_boardIDs].
    rewrite report_foreign_row by apply hardwareIdentifier_not_placeholder.
    cbn [result_bind]. rewrite IH.
    cbn [linePrinted warnAboutEFIVersion stdout]. rewrite <- app_assoc.
    destruct codes; reflexivity.
Qed.

(** X21: away from macOS [main] compares every identifier with the
    placeholder Mac-XXXXXXXXXXXXXXXX, which no identifier read from a table
    can equal: each identifier gets exactly one plain line, in order, none
    is highlighted, and the warning flag is left as it was. *)
Theorem report_boardIDs_foreign (system : str) (codes : list (list byte))
        (biosID : str) (c : console) :
  report_boardIDs (foreign_host system) (map hardwareIdentifier codes)
                  biosID c
  = Ok (mkConsole (match codes with [] => linePrinted c | _ => false end)
                  (warnAboutEFIVersion c)
                  (stdout c
                   ++ map (fun code =>
                             plain_row (hardwareIdentifier code)
                               (Model.getByBoardID (hardwareIdentifier code))
                               biosID)
                          codes)).
Proof. apply report_boardIDs_foreign_rows. Qed.

(** ** main: what a file can do to the console *)

Lemma bind_Ok_inv {A B} (m : io A) (k : A -> io B) (f : file)
      (r : B * file) :
  bind m k f = Ok r -> exists a f1, m f = Ok (a, f1) /\ k a f1 = Ok r.
Proof.
  unfold bind. destruct (m f) as [[a f1]|e|]; try discriminate.
  intros H. exists a, f1. auto.
Qed.

Lemma lift_Ok_inv {A} (r : result A) (f : file) (a : A) (f' : file) :
  lift r f = Ok (a, f') -> r = Ok a.
Proof.
  unfold lift. destruct r; cbn; try discriminate. intros [= -> _]. reflexivity.
Qed.

Lemma showSystemData_console (boardID modelID biosID : str) (c : console) :
  exists lines,
    stdout (showSystemData boardID modelID biosID c) = stdout c ++ lines /\
    warnAboutEFIVersion (showSystemData boardID modelID biosID c)
    = warnAboutEFIVersion c.
Proof.
  unfold showSystemData. destruct (linePrinted c); cbn.
  - eexists. rewrite <- app_assoc. split; reflexivity.
  - eexists. rewrite <- !app_assoc. split; reflexivity.
Qed.

Lemma report_console (h : host) (boardID modelID biosID : str)
      (c c' : console) :
  report h boardID modelID biosID c = Ok c' ->
  (exists lines, stdout c' = stdout c ++ lines) /\
  (warnAboutEFIVersion c = true -> warnAboutEFIVersion c' = true) /\
  (platform_system h <> u "Darwin" ->
   warnAboutEFIVersion c' = warnAboutEFIVersion c).
Proof.
  unfold report. destruct (str_eqb boardID (myBoardID h)).
  - destruct (showSystemData_console boardID modelID biosID c)
      as (lines & Hout & Hwarn).
    destruct (EFI.shouldWarnAboutUpdate (platform_system h) (rawVersion h)
                biosID) as [warn|e|] eqn:E; cbn; try discriminate.
    intros [= <-]. split; [|split].
    + exists lines. destruct warn; exact Hout.
    + intros Hc. destruct warn; [reflexivity|]. congruence.
    + intros Hsys. unfold EFI.shouldWarnAboutUpdate in E.
      rewrite (not_Darwin _ Hsys) in E. injection E as <-. exact Hwarn.
  - intros [= <-]. cbn. split; [|split]; auto.
    eexists. reflexivity.
Qed.

Lemma report_boardIDs_console (h : host) (biosID : str)
      (boardIDs : list str) :
  forall c c' : console,
    report_boardIDs h boardIDs biosID c = Ok c' ->
    (exists lines, stdout c' = stdout c ++ lines) /\
    (warnAboutEFIVersion c = true -> warnAboutEFIVersion c' = true) /\
    (platform_system h <> u "Darwin" ->
     warnAboutEFIVersion c' = warnAboutEFIVersion c).
Proof.
  induction boardIDs as [|boardID boardIDs IH]; intros c c'.
  - intros [= <-]. split; [|split]; auto. exists []. rewrite app_nil_r.
    reflexivity.
  - cbn [report_boardIDs].
    destruct (report h boardID (Model.getByBoardID boardID) biosID c)
      as [c1|e|] eqn:E; cbn; try discriminate.
    intros Hrest. apply report_console in E. apply IH in Hrest.
    destruct E as ((l1 & Ho1) & Hw1 & Hs1).
    destruct Hrest as ((l2 & Ho2) & Hw2 & Hs2).
    split; [|split].
    + exists (l1 ++ l2). rewrite Ho2, Ho1, app_assoc. reflexivity.
    + auto.
    + intros Hsys. rewrite Hs2, Hs1 by exact Hsys. reflexivity.
Qed.

(** X22: whatever a file holds, when [main] gets through it the lines
    printed before are still there with the new ones behind them, a warning
    flag that was set stays set, and away from macOS the flag is never
    changed. *)
Theorem processFile_console (db : UnicodeDB) (fuel : nat) (h : host)
        (fileType filename : str) (c c' : console) (f f' : file) :
  processFile fuel h fileType filename c f = Ok (c', f') ->
  (exists lines, stdout c' = stdout c ++ lines) /\
  (warnAboutEFIVersion c = true -> warnAboutEFIVersion c' = true) /\
  (platform_system h <> u "Darwin" ->
   warnAboutEFIVersion c' = warnAboutEFIVersion c).
Proof.
  unfold processFile. destruct (GUID.shouldPerformCheck filename).
  - unfold processWithTable. intros H.
    apply bind_Ok_inv in H. destruct H as (filesize & f1 & _ & H).
    apply bind_Ok_inv in H. destruct H as (biosID & f2 & _ & H).
    apply bind_Ok_inv in H. destruct H as (position & f3 & _ & H).
    apply bind_Ok_inv in H. destruct H as (boardIDs & f4 & _ & H).
    apply lift_Ok_inv in H. exact (report_boardIDs_console _ _ _ _ _ H).
  - unfold processWithoutTable. intros H.
    apply bind_Ok_inv in H.
    destruct H as ([[boardID modelID] biosID] & f1 & _ & H).
    apply lift_Ok_inv in H. exact (report_console _ _ _ _ _ _ H).
Qed.

Lemma processFile_console_witness :
  exists lines,
    [u "first line"; u "  Mac-F221DCC8         | MacPro5,1      |"
                     ++ map Byte.to_N (bytes_at MP51_image 184 65)]
    = [u "first line"] ++ lines.
Proof.
  assert (Hrun : @processFile asciiDB 1 (foreign_host (u "Linux"))
                   GLOB_SCAP_EXTENSION (u "MP51_007F_03B_LOCKED.scap")
                   (mkConsole true false [u "first line"])
                   (mkFile MP51_image 0)
                 = Ok (mkConsole false false
                         [u "first line";
                          u "  Mac-F221DCC8         | MacPro5,1      |"
                          ++ map Byte.to_N (bytes_at MP51_image 184 65)],
                       mkFile MP51_image 249))
    by (vm_compute; reflexivity).
  exact (proj1 (processFile_console asciiDB 1 (foreign_host (u "Linux"))
                  GLOB_SCAP_EXTENSION (u "MP51_007F_03B_LOCKED.scap")
                  _ _ _ _ Hrun)).
Defined.

(** ** main: the lines printed for one file *)

Lemma processWithTable_run (fuel k : nat) (system filename : str)
      (c : console) (data : list byte) (cur : Z) (record : list byte)
      (codes : list (list byte)) (anchor : Z) :
  (k < fuel)%nat ->
  first_marker data 0xb0 k ->
  bytes_at data (scan_target 0xb0 k + 8) 65 = record ->
  Forall (fun x => (Byte.to_N x < 128)%N) record ->
  (forall cur', GUID.search fuel 0xb0 filename (mkFile data cur')
                = Ok (anchor, mkFile data (anchor + 16))) ->
  0 <= anchor ->
  (length codes <= 13)%nat ->
  Forall valid_code codes ->
  (forall i code, nth_error codes i = Some code ->
     bytes_at data (slot anchor (anchor =? 0x1200) i) 8 = code) ->
  bytes_at data (slot anchor (anchor =? 0x1200) (length codes)) 8
  = BoardID.unused ->
  processWithTable fuel (foreign_host system) GLOB_SCAP_EXTENSION filename c
    (mkFile data cur)
  = Ok (mkConsole (match codes with [] => linePrinted c | _ => false end)
                  (warnAboutEFIVersion c)
                  (stdout c
                   ++ map (fun code =>
                             plain_row (hardwareIdentifier code)
                               (Model.getByBoardID (hardwareIdentifier code))
                               (map Byte.to_N record))
                          codes),
        mkFile data (slot anchor (anchor =? 0x1200) (length codes) + 8)).
Proof.
  intros Hfuel Hfirst Hrec Hascii Hsearch Hanchor Hlen Hvalid Hslots Hend.
  unfold processWithTable. unfold bind at 1. cbn [st_size content].
  change (str_eqb GLOB_SCAP_EXTENSION GLOB_SCAP_EXTENSION) with true.
  cbv iota. unfold bind at 1.
  rewrite (getVersion_ascii_record data cur 0xb0 k fuel record) by assumption.
  unfold bind at 1. rewrite Hsearch.
  unfold bind at 1.
  rewrite (getIDs_table_run data (anchor + 16) anchor (anchor =? 0x1200) codes);
    try assumption; try lia.
  - rewrite Nat.min_l by lia. unfold lift.
    rewrite report_boardIDs_foreign_rows. reflexivity.
  - intros _. exact Hend.
Qed.

(** X23: away from macOS, a [.scap] file that is checked, holds the marker
    ahead of offset 0xb0 with a record of plain characters behind it, one of
    the first two anchor patterns at its fixed offset and a table of up to 13
    codes closed by the unused slot, gets one line for each code of the
    table, in order, with the model of the code and the version string; the
    slots are 8 bytes apart behind 0x98 and 10 bytes apart behind 0x1200. *)
Theorem processFile_prints_table (db : UnicodeDB) (fuel k : nat)
        (system filename : str) (c : console) (data : list byte) (cur : Z)
        (record : list byte) (codes : list (list byte)) (anchor : Z) :
  GUID.shouldPerformCheck filename = true ->
  startswith filename (u "MP51") = false ->
  (k < fuel)%nat ->
  first_marker data 0xb0 k ->
  bytes_at data (scan_target 0xb0 k + 8) 65 = record ->
  Forall (fun x => (Byte.to_N x < 128)%N) record ->
  (anchor = 0x98 /\ bytes_at data 0x98 16 = pattern_B) \/
  (anchor = 0x1200 /\ bytes_at data 0x98 16 <> pattern_B /\
   bytes_at data 0x1200 16 = pattern_C) ->
  (length codes <= 13)%nat ->
  Forall valid_code codes ->
  (forall i code, nth_error codes i = Some code ->
     bytes_at data (slot anchor (anchor =? 0x1200) i) 8 = code) ->
  bytes_at data (slot anchor (anchor =? 0x1200) (length codes)) 8
  = BoardID.unused ->
  processFile fuel (foreign_host system) GLOB_SCAP_EXTENSION filename c
    (mkFile data cur)
  = Ok (mkConsole (match codes with [] => linePrinted c | _ => false end)
                  (warnAboutEFIVersion c)
                  (stdout c
                   ++ map (fun code =>
                             plain_row (hardwareIdentifier code)
                               (Model.getByBoardID (hardwareIdentifier code))
                               (map Byte.to_N record))
                          codes),
        mkFile data (slot anchor (anchor =? 0x1200) (length codes) + 8)).
Proof.
  intros Hcheck Hname Hfuel Hfirst Hrec Hascii Hanchor Hlen Hvalid Hslots
         Hend.
  unfold processFile. rewrite Hcheck.
  apply (processWithTable_run fuel k system filename c data cur record codes
           anchor); try assumption.
  - intros cur'. destruct Hanchor as [[-> HB]|[-> [HB HC]]].
    + apply search_at_0x98; assumption.
    + apply search_at_0x1200; assumption.
  - destruct Hanchor as [[-> _]|[-> _]]; lia.
Qed.

Lemma processFile_prints_table_witness :
  @processFile asciiDB 6 (foreign_host (u "Linux")) GLOB_SCAP_EXTENSION
    (u "MP41_0081_B07_LOCKED.scap") (mkConsole true false [])
    (mkFile table_image 0)
  = Ok (mkConsole false false
          [u "  Mac-F221DCC800000000 | Unknown        |"
           ++ map Byte.to_N sample_record],
        mkFile table_image 196).
Proof.
  refine (processFile_prints_table asciiDB 6 5 (u "Linux")
            (u "MP41_0081_B07_LOCKED.scap") (mkConsole true false [])
            table_image 0 sample_record
            [[Byte.xf2; Byte.x21; Byte.xdc; Byte.xc8; Byte.x00; Byte.x00;
              Byte.x00; Byte.x00]] 152 _ _ _ _ _ _ _ _ _ _ _).
  - reflexivity.
  - reflexivity.
  - lia.
  - split; [lia|]. split.
    + split; [vm_compute; discriminate | vm_compute; reflexivity].
    + intros j Hj [_ C].
      do 5 (destruct j as [|j]; [vm_compute in C; discriminate C|]). lia.
  - vm_compute. reflexivity.
  - exact (version_record_ascii _ _ sample_version_record).
  - left. split; [reflexivity | vm_compute; reflexivity].
  - cbn. lia.
  - repeat constructor; discriminate.
  - intros i code H. destruct i as [|i]; [injection H as <-; reflexivity|].
    destruct i; discriminate H.
  - vm_compute. reflexivity.
Defined.

Lemma getByModelID_in_range (table : list (str * str)) (model : str) :
  BoardID.getByModelID_in table model = u "Unknown" \/
  In (BoardID.getByModelID_in table model) (map fst table).
Proof.
  induction table as [|x t IH]; simpl; [left; reflexivity|].
  destruct (str_eqb model (snd x)); [right; left; reflexivity|].
  destruct IH; auto.
Qed.

Lemma getByModelID_not_placeholder (model : str) :
  BoardID.getByModelID model <> u "Mac-XXXXXXXXXXXXXXXX".
Proof.
  unfold BoardID.getByModelID.
  destruct (getByModelID_in_range boardIDModelIDs model) as [E|Hin];
    intros C.
  - rewrite E in C. discriminate C.
  - rewrite C in Hin. revert Hin. apply not_in_existsb.
    vm_compute. reflexivity.
Qed.

(** X24: away from macOS, a file named after an old-style model whose
    marker is followed by a well-formed record gets one plain line: the
    identifier looked up for the model derived from the letters and digits of
    the record's first field, that model, and the version string. *)
Theorem processFile_old_style_row (db : UnicodeDB) (fuel k : nat)
        (system fileType filename : str) (c : console) (data : list byte)
        (cur : Z) (record : list byte) (fields : list str) :
  GUID.shouldPerformCheck filename = false ->
  (k < fuel)%nat ->
  first_marker data 0xb0 k ->
  bytes_at data (scan_target 0xb0 k + 8) 65 = record ->
  version_record record fields ->
  isalnum NUL = false ->
  let modelID := Model.getID (filter isalnum (hd [] fields)) in
  processFile fuel (foreign_host system) fileType filename c (mkFile data cur)
  = Ok (mkConsole false (warnAboutEFIVersion c)
          (stdout c ++ [plain_row (BoardID.getByModelID modelID) modelID
                                  (map Byte.to_N record)]),
        mkFile data (scan_target 0xb0 k + 8 + 65)).
Proof.
  intros Hcheck Hfuel Hfirst Hrec Hwf Hnul modelID.
  unfold processFile. rewrite Hcheck. unfold processWithoutTable.
  unfold bind at 1.
  rewrite (getData_run db data cur 0xb0 k fuel record fields) by assumption.
  unfold lift. fold modelID.
  rewrite report_foreign_row by apply getByModelID_not_placeholder.
  reflexivity.
Qed.

Lemma processFile_old_style_row_witness :
  @processFile asciiDB 1 (foreign_host (u "Linux")) GLOB_SCAP_EXTENSION
    (u "IM101_00CF_B00_LOCKED.scap") (mkConsole true false [])
    (mkFile sample_image 0)
  = Ok (mkConsole false false
          [u "  Mac-F2268CC8         | iMac10,1       |"
           ++ map Byte.to_N sample_record],
        mkFile sample_image 249).
Proof.
  refine (processFile_old_style_row asciiDB 1 0 (u "Linux")
            GLOB_SCAP_EXTENSION (u "IM101_00CF_B00_LOCKED.scap")
            (mkConsole true false []) sample_image 0 sample_record
            sample_fields _ _ _ _ _ _).
  - reflexivity.
  - lia.
  - exact sample_first_marker.
  - vm_compute. reflexivity.
  - exact sample_version_record.
  - reflexivity.
Defined.

(** ** GUID.search, the MacPro5,1 branch *)

Lemma bytes_at_full (data : list byte) (p : Z) (n : nat) (x : list byte) :
  0 <= p -> bytes_at data p n = x -> length x = n ->
  p + Z.of_nat n <= Z.of_nat (length data) \/ n = 0%nat.
Proof.
  intros Hp <- Hlen. unfold bytes_at in Hlen.
  rewrite length_firstn, length_skipn in Hlen. lia.
Qed.

Lemma search_MP51_loop_steps (data : list byte) (filesize : Z) (k : nat) :
  forall (fuel : nat) (p : Z),
    (k < fuel)%nat ->
    0 <= p ->
    (forall j, (j < k)%nat ->
       p + 4 * Z.of_nat j < filesize - 8 /\
       bytes_at data (p + 4 * Z.of_nat j) 16 <> pattern_A) ->
    bytes_at data (p + 4 * Z.of_nat k) 16 = pattern_A ->
    GUID.search_MP51_loop fuel filesize p (mkFile data p)
    = Ok (p + 4 * Z.of_nat k, mkFile data (p + 4 * Z.of_nat k + 16)).
Proof.
  induction k as [|k IH]; intros fuel p Hfuel Hp Hnone Hhere;
    (destruct fuel as [|fuel]; [lia|]);
    cbn [GUID.search_MP51_loop]; rewrite bind_read;
    cbn [content cursor]; cbv zeta.
  - replace (p + 4 * Z.of_nat 0) with p in * by lia.
    rewrite (hex_test_true _ _ _ hexlify_pattern_A Hhere), Hhere.
    reflexivity.
  - destruct (Hnone 0%nat ltac:(lia)) as [Hlt H0].
    replace (p + 4 * Z.of_nat 0) with p in * by lia.
    rewrite (hex_test_false _ _ _ hexlify_pattern_A H0).
    replace (p <? filesize - 8) with true by (symmetry; apply Z.ltb_lt; lia).
    rewrite bind_seek by lia. cbn [content]. rewrite IH.
    + apply f_equal, f_equal2; [lia | apply f_equal; lia].
    + lia.
    + lia.
    + intros j Hj. replace (p + 4 + 4 * Z.of_nat j)
        with (p + 4 * Z.of_nat (S j)) by lia. apply Hnone. lia.
    + rewrite <- Hhere. f_equal. lia.
Qed.

(** X25: for a file named after the MacPro5,1 the first 16 bytes compared
    are those under the cursor the caller left, counted as offset 0; after
    them [GUID.search] tries the offsets 4, 8, ... as long as the offset
    before was below [filesize - 8], and returns the first that holds
    pattern A. *)
Theorem search_MP51_finds (fuel k : nat) (filesize : Z) (filename : str)
        (data : list byte) (cur : Z) :
  startswith filename (u "MP51") = true ->
  (S k < fuel)%nat ->
  8 < filesize ->
  bytes_at data cur 16 <> pattern_A ->
  (forall j, (1 <= j)%nat -> (j <= k)%nat ->
     4 * Z.of_nat j < filesize - 8 /\
     bytes_at data (4 * Z.of_nat j) 16 <> pattern_A) ->
  bytes_at data (4 * Z.of_nat (S k)) 16 = pattern_A ->
  GUID.search fuel filesize filename (mkFile data cur)
  = Ok (4 * Z.of_nat (S k), mkFile data (4 * Z.of_nat (S k) + 16)).
Proof.
  intros Hname Hfuel Hsize Hfirst Hnone Hhere.
  unfold GUID.search, GUID.search_MP51. rewrite Hname. cbv zeta.
  destruct fuel as [|fuel]; [lia|].
  cbn [GUID.search_MP51_loop]. rewrite bind_read. cbn [content cursor].
  cbv zeta. rewrite (hex_test_false _ _ _ hexlify_pattern_A Hfirst).
  replace (0 <? filesize - 8) with true by (symmetry; apply Z.ltb_lt; lia).
  rewrite bind_seek by lia. cbn [content].
  rewrite (search_MP51_loop_steps data filesize k fuel (0 + 4)).
  - apply f_equal, f_equal2; [lia | apply f_equal; lia].
  - lia.
  - lia.
  - intros j Hj. replace (0 + 4 + 4 * Z.of_nat j)
      with (4 * Z.of_nat (S j)) by lia. apply Hnone; lia.
  - rewrite <- Hhere. f_equal. lia.
Qed.

Lemma search_MP51_finds_witness :
  let data := repeat Byte.x00 8 ++ pattern_A in
  GUID.search 3 24 (u "MP51.fd") (mkFile data 20) = Ok (8, mkFile data 24).
Proof.
  intros data.
  refine (search_MP51_finds 3 1 24 (u "MP51.fd") data 20 _ _ _ _ _ _).
  - reflexivity.
  - lia.
  - lia.
  - vm_compute. discriminate.
  - intros j Hj1 Hj2. destruct j as [|[|j]]; [lia | | lia].
    split; [lia | vm_compute; discriminate].
  - vm_compute. reflexivity.
Defined.

Lemma search_MP51_loop_stuck (data : list byte) (filesize position : Z)
      (m : nat) :
  forall (fuel : nat) (cur : Z),
    filesize - 8 <= position ->
    0 <= cur ->
    (m < fuel)%nat ->
    (forall j, (j < m)%nat ->
       bytes_at data (cur + 16 * Z.of_nat j) 16 <> pattern_A) ->
    bytes_at data (cur + 16 * Z.of_nat m) 16 = pattern_A ->
    GUID.search_MP51_loop fuel filesize position (mkFile data cur)
    = Ok (position, mkFile data (cur + 16 * Z.of_nat m + 16)).
Proof.
  induction m as [|m IH]; intros fuel cur Hbound Hcur Hfuel Hnone Hhere;
    (destruct fuel as [|fuel]; [lia|]);
    cbn [GUID.search_MP51_loop]; rewrite bind_read;
    cbn [content cursor]; cbv zeta.
  - replace (cur + 16 * Z.of_nat 0) with cur in * by lia.
    rewrite (hex_test_true _ _ _ hexlify_pattern_A Hhere), Hhere.
    reflexivity.
  - pose proof (Hnone 0%nat ltac:(lia)) as H0.
    replace (cur + 16 * Z.of_nat 0) with cur in H0 by lia.
    rewrite (hex_test_false _ _ _ hexlify_pattern_A H0).
    replace (position <? filesize - 8) with false
      by (symmetry; apply Z.ltb_ge; lia).
    assert (Hfull : length (bytes_at data cur 16) = 16%nat).
    { apply bytes_at_inside; [lia|].
      destruct (bytes_at_full data (cur + 16 * Z.of_nat (S m)) 16 pattern_A)
        as [H|H]; try reflexivity; try assumption; lia. }
    rewrite Hfull. rewrite IH.
    + apply f_equal, f_equal2; [lia | apply f_equal; lia].
    + lia.
    + lia.
    + lia.
    + intros j Hj. replace (cur + Z.of_nat 16 + 16 * Z.of_nat j)
        with (cur + 16 * Z.of_nat (S j)) by lia. apply Hnone. lia.
    + rewrite <- Hhere. f_equal. lia.
Qed.

(** X26: in the MacPro5,1 branch with a size of 8 or less the position
    never leaves 0: the file is read in consecutive blocks of 16 bytes from
    where its cursor stood, and when one of the blocks is pattern A the value
    returned is 0, not the offset of that block. *)
Theorem search_MP51_small_size_returns_0 (fuel m : nat) (filesize : Z)
        (filename : str) (data : list byte) (cur : Z) :
  startswith filename (u "MP51") = true ->
  filesize <= 8 ->
  0 <= cur ->
  (m < fuel)%nat ->
  (forall j, (j < m)%nat ->
     bytes_at data (cur + 16 * Z.of_nat j) 16 <> pattern_A) ->
  bytes_at data (cur + 16 * Z.of_nat m) 16 = pattern_A ->
  GUID.search fuel filesize filename (mkFile data cur)
  = Ok (0, mkFile data (cur + 16 * Z.of_nat m + 16)).
Proof.
  intros Hname Hsize Hcur Hfuel Hnone Hhere.
  unfold GUID.search, GUID.search_MP51. rewrite Hname. cbv zeta.
  apply search_MP51_loop_stuck; try assumption. lia.
Qed.

Lemma search_MP51_small_size_returns_0_witness :
  let data := repeat Byte.x00 20 ++ pattern_A in
  GUID.search 2 8 (u "MP51.fd") (mkFile data 4) = Ok (0, mkFile data 36).
Proof.
  intros data.
  refine (search_MP51_small_size_returns_0 2 1 8 (u "MP51.fd") data 4
            _ _ _ _ _ _).
  - reflexivity.
  - lia.
  - lia.
  - lia.
  - intros j Hj. destruct j as [|j]; [vm_compute; discriminate | lia].
  - vm_compute. reflexivity.
Defined.
